(** * Smart-ration planner: catalog lookup, day planner and slot distributor

    Shallow embedding of [distribute_products], [find_similar_product],
    [calculate_total_calories] and [create_multi_day_plan] of
    [src/smart_ration/bot.py].

    Python [float] values are kept behind a small numeric interface
    ([Num]).  The program text is translated once, over that interface;
    it is then read at two instances:
    - [float_num], IEEE binary64 (Rocq's primitive floats), which is what
      the interpreter computes with;
    - [Q_num], exact rational arithmetic, on which the arithmetic
      invariants are proved. *)

From Stdlib Require Import List String Ascii Bool ZArith QArith Qround Lia Lqa.
From Stdlib Require Import Floats Uint63.
Import ListNotations.

Set Implicit Arguments.
Local Open Scope string_scope.
Local Open Scope list_scope.

(** ** Numbers *)

Class Num (F : Type) : Type := {
  zero   : F;
  add    : F -> F -> F;
  sub    : F -> F -> F;
  mul    : F -> F -> F;
  quot   : F -> F -> F;          (* the quotient, for a non-zero divisor *)
  ltb    : F -> F -> bool;       (* [x < y] *)
  leb    : F -> F -> bool;       (* [x <= y] *)
  is_zero : F -> bool;           (* [x == 0.0] *)
  of_Z   : Z -> F;               (* [float(n)] for an [int] *)
  hundred : F;                   (* [100.0] *)
  eps9   : F;                    (* [1e-9] *)
  eps6   : F                     (* [1e-6] *)
}.

#[export] Instance Q_num : Num Q := {|
  zero := 0%Q;
  add := Qplus;
  sub := Qminus;
  mul := Qmult;
  quot := Qdiv;
  ltb x y := negb (Qle_bool y x);
  leb := Qle_bool;
  is_zero x := Qeq_bool x 0;
  of_Z := inject_Z;
  hundred := 100%Q;
  eps9 := (1 # 1000000000)%Q;
  eps6 := (1 # 1000000)%Q
|}.

(** [float(n)] for [|n| < 2^63]: correctly rounded by [of_uint63]. *)
Definition float_of_Z (z : Z) : float :=
  match z with
  | Z0 => 0%float
  | Zpos _ => PrimFloat.of_uint63 (Uint63.of_Z z)
  | Zneg p => PrimFloat.opp (PrimFloat.of_uint63 (Uint63.of_Z (Zpos p)))
  end.

#[export] Instance float_num : Num float := {|
  zero := 0%float;
  add := PrimFloat.add;
  sub := PrimFloat.sub;
  mul := PrimFloat.mul;
  quot := PrimFloat.div;
  ltb := PrimFloat.ltb;
  leb := PrimFloat.leb;
  is_zero x := PrimFloat.eqb x 0%float;
  of_Z := float_of_Z;
  hundred := 100%float;
  eps9 := 1e-9%float;
  eps6 := 1e-6%float
|}.

(** ** Exceptions and results *)

Inductive exn : Type :=
| ZeroDivisionError
| KeyError
| RuntimeError.

Inductive result (A : Type) : Type :=
| Ok (a : A)
| Raise (e : exn).
Arguments Ok {A} a.
Arguments Raise {A} e.

Definition bind {A B} (r : result A) (k : A -> result B) : result B :=
  match r with
  | Ok a => k a
  | Raise e => Raise e
  end.

Notation "x <- r ;; k" := (bind r (fun x => k))
  (at level 61, r at next level, right associativity).

Fixpoint mapM {A B} (f : A -> result B) (l : list A) : result (list B) :=
  match l with
  | [] => Ok []
  | a :: l' => b <- f a ;; bs <- mapM f l' ;; Ok (b :: bs)
  end.

(** ** Strings *)

(** [needle in hay] on [str]. *)
Fixpoint in_str (needle hay : string) : bool :=
  String.prefix needle hay
  || match hay with
     | EmptyString => false
     | String _ hay' => in_str needle hay'
     end.

(** ** Insertion-ordered dictionaries with [str] keys *)

Section Dict.

Context {V : Type}.

Fixpoint dict_get (d : list (string * V)) (k : string) : option V :=
  match d with
  | [] => None
  | (k', v) :: d' => if k' =? k then Some v else dict_get d' k
  end.

Definition dict_mem (d : list (string * V)) (k : string) : bool :=
  match dict_get d k with Some _ => true | None => false end.

(** [d[k] = v]: an existing key keeps its place, a new one goes last. *)
Fixpoint dict_set (d : list (string * V)) (k : string) (v : V)
  : list (string * V) :=
  match d with
  | [] => [(k, v)]
  | (k', v') :: d' =>
    if k' =? k then (k', v) :: d' else (k', v') :: dict_set d' k v
  end.

Definition dict_keys (d : list (string * V)) : list string := map fst d.

End Dict.

Section Planner.

Context {F : Type} {N : Num F}.

(** [min(a, b)] and [max(a, b)] of the interpreter: the second argument
    replaces the first only when it compares strictly better. *)
Definition py_min (a b : F) : F := if ltb b a then b else a.
Definition py_max (a b : F) : F := if ltb a b then b else a.

(** [x / y] on floats raises on a zero divisor. *)
Definition py_div (x y : F) : result F :=
  if is_zero y then Raise ZeroDivisionError else Ok (quot x y).

(** [sum(...)]: additions from left to right, starting from [0].
    (CPython 3.12 and later compensate the rounding of a sum of floats;
    both give the same result whenever the additions are exact.) *)
Definition py_sum (xs : list F) : F := fold_left add xs zero.

(** ** Data *)

Definition entry : Type := string * F.          (* (name, grams) *)

Record Product : Type := mkProduct {
  p_name : string;
  calories : F;
  protein : F;
  fat : F;
  carbs : F
}.

Record MealPlan : Type := mkMealPlan {
  breakfast : list entry;
  snack : list entry;
  lunch : list entry;
  dinner : list entry;
  second_snack : option (list entry)
}.

(** ** [distribute_products] *)

Definition distribute_products (products : list entry) (meals_count : Z)
  : result MealPlan :=
  match products with
  | [] => Ok (mkMealPlan [] [] [] [] None)
  | _ =>
    if (meals_count =? 0)%Z then Raise ZeroDivisionError
    else
      let per_meal :=
        map (fun p : entry => (fst p, quot (snd p) (of_Z meals_count))) products in
      Ok (mkMealPlan per_meal per_meal per_meal per_meal
            (if (meals_count =? 5)%Z then Some per_meal else None))
  end.

(** ** The catalog and its lookup

    [PRODUCTS_DB] is filled at import time from [products.json]; the
    catalog and [str.lower] are parameters here. *)

Section Catalog.

Variable lower : string -> string.
Variable PRODUCTS_DB : list (string * Product).

Definition find_similar_product (product_name : string) : option string :=
  let product_name_lower := lower product_name in
  if dict_mem PRODUCTS_DB product_name_lower then Some product_name_lower
  else
    find (fun db_name =>
            in_str product_name_lower db_name || in_str db_name product_name_lower)
         (dict_keys PRODUCTS_DB).

(** [PRODUCTS_DB[key]] *)
Definition db_lookup (key : string) : result Product :=
  match dict_get PRODUCTS_DB key with
  | Some p => Ok p
  | None => Raise KeyError
  end.

(** [if db_product_name:] holds for a key other than the empty string;
    [None] and [""] both take the [else] branch. *)
Definition calculate_total_calories (products : list entry) : result F :=
  fold_left
    (fun acc (p : entry) =>
       total_calories <- acc ;;
       match find_similar_product (fst p) with
       | Some (String _ _ as db_product_name) =>
         product <- db_lookup db_product_name ;;
         Ok (add total_calories (quot (mul (calories product) (snd p)) hundred))
       | _ => Ok (add total_calories (quot (mul hundred (snd p)) hundred))
       end)
    products (Ok zero).

(** The helper nested in [create_multi_day_plan]. *)
Definition calories_per_gram (product_name : string) : result F :=
  match find_similar_product product_name with
  | Some (String _ _ as db_product_name) =>
    product <- db_lookup db_product_name ;;
    Ok (quot (calories product) hundred)
  | _ => Ok (quot hundred hundred)
  end.

(** ** [create_multi_day_plan] *)

Record item : Type := mkItem {
  name : string;
  weight : F;
  kcal_per_g : F
}.

Definition set_weight (it : item) (w : F) : item :=
  mkItem (name it) w (kcal_per_g it).

(** The list comprehension that builds [remaining]. *)
Fixpoint initial_remaining (products : list entry) : result (list item) :=
  match products with
  | [] => Ok []
  | (n, w) :: rest =>
    if ltb zero w then
      k <- calories_per_gram n ;;
      its <- initial_remaining rest ;;
      Ok (mkItem n w k :: its)
    else initial_remaining rest
  end.

Definition total_remaining_kcal (remaining : list item) : F :=
  py_sum (map (fun it => mul (weight it) (kcal_per_g it)) remaining).

(** [{item["name"]: 0.0 for item in remaining}] *)
Definition zero_assignment (remaining : list item) : list (string * F) :=
  fold_left (fun d it => dict_set d (name it) zero) remaining [].

(** First loop of an iteration: the share proportional to the energy of
    each item. *)
Fixpoint proportional_pass (target_kcal total_kcal : F) (items : list item)
    (assigned_grams : list (string * F)) : result (list (string * F)) :=
  match items with
  | [] => Ok assigned_grams
  | it :: rest =>
    if leb (weight it) eps9 then
      proportional_pass target_kcal total_kcal rest assigned_grams
    else
      frac <- py_div (mul (weight it) (kcal_per_g it)) total_kcal ;;
      let share_kcal := mul target_kcal frac in
      q <- py_div share_kcal (py_max (kcal_per_g it) eps9) ;;
      let grams := py_min (weight it) q in
      if ltb zero grams then
        match dict_get assigned_grams (name it) with
        | Some v =>
          proportional_pass target_kcal total_kcal rest
            (dict_set assigned_grams (name it) (add v grams))
        | None => Raise KeyError
        end
      else proportional_pass target_kcal total_kcal rest assigned_grams
  end.

(** [next(itm for itm in remaining if itm["name"] == name)["kcal_per_g"]];
    inside the generator handed to [sum] an exhausted [next] surfaces as
    [RuntimeError]. *)
Definition kcal_of (remaining : list item) (nm : string) : result F :=
  match find (fun itm => name itm =? nm) remaining with
  | Some itm => Ok (kcal_per_g itm)
  | None => Raise RuntimeError
  end.

Definition day_energy (remaining : list item) (assigned_grams : list (string * F))
  : result F :=
  terms <- mapM (fun kv : string * F =>
                   k <- kcal_of remaining (fst kv) ;; Ok (mul (snd kv) k))
                assigned_grams ;;
  Ok (py_sum terms).

Definition dict_get_default (d : list (string * F)) (k : string) (dflt : F) : F :=
  match dict_get d k with Some v => v | None => dflt end.

(** The residual loop of the [else] branch; it stops at the first item
    met with [residual_kcal <= 1e-6]. *)
Fixpoint top_up (items : list item) (assigned_grams : list (string * F))
    (residual_kcal : F) : result (list (string * F) * F) :=
  match items with
  | [] => Ok (assigned_grams, residual_kcal)
  | it :: rest =>
    if leb residual_kcal eps6 then Ok (assigned_grams, residual_kcal)
    else if leb (weight it) eps9 then top_up rest assigned_grams residual_kcal
    else
      let kpg := py_max (kcal_per_g it) eps9 in
      let current_assigned := dict_get_default assigned_grams (name it) zero in
      let can_add_grams := py_max zero (sub (weight it) current_assigned) in
      q <- py_div residual_kcal kpg ;;
      let add_grams := py_min can_add_grams q in
      if ltb zero add_grams then
        top_up rest
          (dict_set assigned_grams (name it) (add current_assigned add_grams))
          (sub residual_kcal (mul add_grams kpg))
      else top_up rest assigned_grams residual_kcal
  end.

(** Grams finally charged to one item, and the item afterwards. *)
Definition charged_grams (assigned_grams : list (string * F)) (it : item) : F :=
  py_max zero (py_min (dict_get_default assigned_grams (name it) zero) (weight it)).

Definition charge (assigned_grams : list (string * F)) (it : item)
  : option entry * item :=
  let grams := charged_grams assigned_grams it in
  if ltb zero grams then
    let w := sub (weight it) grams in
    (Some (name it, grams), set_weight it (if ltb w eps9 then zero else w))
  else (None, it).

Fixpoint apply_day (assigned_grams : list (string * F)) (remaining : list item)
  : list entry * list item :=
  match remaining with
  | [] => ([], [])
  | it :: rest =>
    let (day_products, rest') := apply_day assigned_grams rest in
    match charge assigned_grams it with
    | (Some e, it') => (e :: day_products, it' :: rest')
    | (None, it') => (day_products, it' :: rest')
    end
  end.

(** One turn of the [while] loop: [None] when the loop is left, the day
    and the new [remaining] otherwise. *)
Definition plan_day (cap_per_day : F) (remaining : list item)
  : result (option (list entry * list item)) :=
  if negb (existsb (fun it => ltb eps9 (weight it)) remaining) then Ok None
  else
    let total_kcal := total_remaining_kcal remaining in
    if leb total_kcal eps9 then Ok None
    else
      let target_kcal := py_min cap_per_day total_kcal in
      assigned0 <- proportional_pass target_kcal total_kcal remaining
                     (zero_assignment remaining) ;;
      day_kcal <- day_energy remaining assigned0 ;;
      assigned <-
        (if ltb (add target_kcal eps6) day_kcal then
           scale <- py_div target_kcal day_kcal ;;
           Ok (map (fun kv : string * F => (fst kv, mul (snd kv) scale)) assigned0)
         else
           let residual_kcal := py_max zero (sub target_kcal day_kcal) in
           if ltb eps6 residual_kcal then
             ar <- top_up remaining assigned0 residual_kcal ;;
             Ok (fst ar)
           else Ok assigned0) ;;
      Ok (Some (apply_day assigned remaining)).

(** How a run of the [while] loop ends. *)
Inductive status : Type :=
| Finished
| Crashed (e : exn)
| Unfinished.

(** The [while] loop with a bound on the number of iterations; the
    second component is [days] as built so far. *)
Fixpoint build_days (fuel : nat) (cap_per_day : F) (remaining : list item)
    (days : list (list entry)) : status * list (list entry) :=
  match plan_day cap_per_day remaining with
  | Raise e => (Crashed e, days)
  | Ok None => (Finished, days)
  | Ok (Some (day_products, remaining')) =>
    match fuel with
    | O => (Unfinished, days)
    | S fuel' => build_days fuel' cap_per_day remaining' (days ++ [day_products])
    end
  end.

(** [days] of [create_multi_day_plan], before the split into meals. *)
Definition plan_days (fuel : nat) (products : list entry)
    (daily_calories calorie_excess_cap : Z) : status * list (list entry) :=
  match initial_remaining products with
  | Raise e => (Crashed e, [])
  | Ok remaining =>
    build_days fuel (of_Z (daily_calories + calorie_excess_cap)) remaining []
  end.

Definition create_multi_day_plan (fuel : nat) (products : list entry)
    (daily_calories meals_count calorie_excess_cap : Z)
  : status * list MealPlan :=
  match plan_days fuel products daily_calories calorie_excess_cap with
  | (Finished, days) =>
    match mapM (fun day_products => distribute_products day_products meals_count)
               days with
    | Ok daily_plans => (Finished, daily_plans)
    | Raise e => (Crashed e, [])
    end
  | (st, _) => (st, [])
  end.

End Catalog.

End Planner.

(** ** Profiles and daily norms *)

Inductive Gender : Type := MALE | FEMALE.

Inductive Activity : Type :=
| SEDENTARY | LIGHT | MODERATE | ACTIVE | VERY_ACTIVE.

Inductive Goal : Type := WEIGHT_LOSS | BALANCE | WEIGHT_GAIN.

(** What a call can end in besides a value: the exceptions above, and
    the two that [int(x)] raises on a float that is not finite. *)
Inductive error : Type :=
| Exn (e : exn)
| ValueError
| OverflowError.

Inductive attempt (A : Type) : Type :=
| Got (a : A)
| Failed (e : error).
Arguments Got {A} a.
Arguments Failed {A} e.

(** [int(x)]: truncation towards zero. *)
Class NumInt (F : Type) : Type := {
  to_int : F -> attempt Z
}.

#[export] Instance Q_int : NumInt Q := {|
  to_int x := Got (Z.quot (Qnum x) (Zpos (Qden x)))
|}.

Definition float_to_int (x : float) : attempt Z :=
  match Prim2SF x with
  | S754_zero _ => Got 0%Z
  | S754_infinity _ => Failed OverflowError
  | S754_nan => Failed ValueError
  | S754_finite s m e =>
    let magnitude :=
      match e with
      | Zneg p => Z.shiftr (Zpos m) (Zpos p)
      | _ => Z.shiftl (Zpos m) e
      end in
    Got (if s then (- magnitude)%Z else magnitude)
  end.

#[export] Instance float_int : NumInt float := {|
  to_int := float_to_int
|}.

Section Profile.

Context {F : Type} {N : Num F} {I : NumInt F}.

(** A decimal literal [n / d] with [n] and [d] small integers: the
    correctly rounded quotient is the float the literal denotes. *)
Definition lit (n d : Z) : F := quot (of_Z n) (of_Z d).

(** [activity.value] *)
Definition activity_value (activity : Activity) : F :=
  match activity with
  | SEDENTARY => lit 12 10
  | LIGHT => lit 1375 1000
  | MODERATE => lit 155 100
  | ACTIVE => lit 1725 1000
  | VERY_ACTIVE => lit 19 10
  end.

Definition calculate_bmr (gender : Gender) (weight height : F) (age : Z) : F :=
  let common :=
    sub (add (mul (of_Z 10) weight) (mul (lit 625 100) height)) (of_Z (5 * age)) in
  match gender with
  | MALE => add common (of_Z 5)
  | FEMALE => sub common (of_Z 161)
  end.

Definition calculate_daily_calories (bmr : F) (activity : Activity) (goal : Goal)
  : attempt Z :=
  let tdee := mul bmr (activity_value activity) in
  match goal with
  | WEIGHT_LOSS => to_int (mul tdee (lit 8 10))
  | BALANCE => to_int (mul tdee (lit 9 10))
  | WEIGHT_GAIN => to_int (mul tdee (lit 11 10))
  end.

Definition calculate_macros (calories : Z) (goal : Goal) : F * F * F :=
  let share (fraction : F) (kcal_per_gram : Z) :=
    quot (mul (of_Z calories) fraction) (of_Z kcal_per_gram) in
  match goal with
  | WEIGHT_LOSS =>
    (share (lit 3 10) 4%Z, share (lit 25 100) 9%Z, share (lit 45 100) 4%Z)
  | BALANCE =>
    (share (lit 25 100) 4%Z, share (lit 3 10) 9%Z, share (lit 45 100) 4%Z)
  | WEIGHT_GAIN =>
    (share (lit 25 100) 4%Z, share (lit 25 100) 9%Z, share (lit 5 10) 4%Z)
  end.

Definition get_meals_count (goal : Goal) : Z :=
  match goal with
  | WEIGHT_GAIN => 5%Z
  | _ => 4%Z
  end.

(** What [process_goal_selection] stores for a new profile: the daily
    calories, the three macros and the number of meals. *)
Definition daily_norms (gender : Gender) (age : Z) (weight height : F)
    (activity : Activity) (goal : Goal) : attempt (Z * (F * F * F) * Z) :=
  let bmr := calculate_bmr gender weight height age in
  match calculate_daily_calories bmr activity goal with
  | Got daily_calories =>
    Got (daily_calories, calculate_macros daily_calories goal, get_meals_count goal)
  | Failed e => Failed e
  end.

(** The checks of [process_age], [process_weight] and [process_height]:
    the answer is kept unless it is out of range. *)
Definition age_accepted (age : Z) : bool :=
  negb ((age <? 10)%Z || (100 <? age)%Z).

Definition weight_accepted (weight : F) : bool :=
  negb (ltb weight (of_Z 30) || ltb (of_Z 300) weight).

Definition height_accepted (height : F) : bool :=
  negb (ltb height (of_Z 100) || ltb (of_Z 250) height).

(** The check of [process_product_weight] *)
Definition product_weight_accepted (weight : F) : bool :=
  negb (leb weight zero || ltb (of_Z 10000) weight).

Section Basket.

Variable lower : string -> string.

(** The search loop of [add_product_to_user]: the list with the first
    entry of that name, case folded, increased by [weight], or [None]
    when the loop ends without a match. *)
Fixpoint merge_product (products : list (entry (F:=F))) (product_name : string)
    (weight : F) : option (list (entry (F:=F))) :=
  match products with
  | [] => None
  | (name, existing_weight) :: rest =>
    if lower name =? lower product_name
    then Some ((name, add existing_weight weight) :: rest)
    else
      match merge_product rest product_name weight with
      | Some rest' => Some ((name, existing_weight) :: rest')
      | None => None
      end
  end.

(** The list of one user after [add_product_to_user]. *)
Definition basket_add (products : list (entry (F:=F))) (product_name : string)
    (weight : F) : list (entry (F:=F)) :=
  match merge_product products product_name weight with
  | Some merged => merged
  | None => products ++ [(lower product_name, weight)]
  end.

(** The list of one user after [remove_product_from_user]: the first
    entry of that name, case folded, is deleted. *)
Fixpoint basket_remove (products : list (entry (F:=F))) (product_name : string)
  : list (entry (F:=F)) :=
  match products with
  | [] => []
  | (name, weight) :: rest =>
    if lower name =? lower product_name then rest
    else (name, weight) :: basket_remove rest product_name
  end.

(** [user_products], the cache of lists by user id. *)
Definition cache : Type := Z -> option (list (entry (F:=F))).

(** [user_products.get(user_id, [])] *)
Definition cache_get (user_products : cache) (user_id : Z) : list (entry (F:=F)) :=
  match user_products user_id with
  | Some products => products
  | None => []
  end.

(** [user_products[user_id] = products] *)
Definition cache_set (user_products : cache) (user_id : Z) (products : list (entry (F:=F)))
  : cache :=
  fun u => if (u =? user_id)%Z then Some products else user_products u.

(** The cache after [add_product_to_user], [remove_product_from_user]
    and [clear_user_products]; the calls to the database service are
    not part of the cache. *)
Definition add_product_to_user (user_products : cache) (user_id : Z)
    (product_name : string) (weight : F) : cache :=
  let user_products :=
    match user_products user_id with
    | None => cache_set user_products user_id []
    | Some _ => user_products
    end in
  cache_set user_products user_id
    (basket_add (cache_get user_products user_id) product_name weight).

Definition remove_product_from_user (user_products : cache) (user_id : Z)
    (product_name : string) : cache :=
  match user_products user_id with
  | None => user_products
  | Some products =>
    cache_set user_products user_id (basket_remove products product_name)
  end.

Definition clear_user_products (user_products : cache) (user_id : Z) : cache :=
  match user_products user_id with
  | None => user_products
  | Some _ => cache_set user_products user_id []
  end.

(** The loop of [load_products] over the entries read from
    [products.json]. *)
Definition load_products (data : list (Product (F:=F))) : list (string * Product (F:=F)) :=
  fold_left (fun products item => dict_set products (lower (p_name item)) item)
            data [].

Variable PRODUCTS_DB : list (string * Product (F:=F)).

Definition suggest_meal_plan_days (products : list (entry (F:=F))) (daily_calories : Z)
  : attempt Z :=
  match calculate_total_calories lower PRODUCTS_DB products with
  | Raise e => Failed (Exn e)
  | Ok total_calories =>
    if leb total_calories (of_Z daily_calories) then Got 1%Z
    else if (daily_calories =? 0)%Z then Failed (Exn ZeroDivisionError)
    else
      match to_int (quot total_calories (of_Z daily_calories)) with
      | Got n => Got (Z.min (Z.max 1 n) 7)
      | Failed e => Failed e
      end
  end.

End Basket.

End Profile.

(** ** A sample catalog *)

(** [str.lower] on ASCII letters. *)
Fixpoint ascii_lower (s : string) : string :=
  match s with
  | EmptyString => EmptyString
  | String c s' =>
    let n := nat_of_ascii c in
    String (if ((65 <=? n) && (n <=? 90))%nat then ascii_of_nat (n + 32) else c)
           (ascii_lower s')
  end.

Definition grain {F} {N : Num F} (nm : string) (kcal : Z) : string * Product :=
  (nm, mkProduct nm (of_Z kcal) zero zero zero).

Definition demo_db {F} {N : Num F} : list (string * Product) :=
  [grain "rice" 344; grain "chicken" 165; grain "water" 0; grain "cucumber" 15].

Unset Implicit Arguments.

(** ** Vocabulary of the statements *)

Section Vocabulary.

Context {F : Type} {N : Num F}.
Variable lower : string -> string.
Variable PRODUCTS_DB : list (string * Product (F:=F)).

(** The query is matched by a catalog key, one way or the other. *)
Definition similar (query db_name : string) : bool :=
  in_str query db_name || in_str db_name query.

(** Energy density of a name in kcal per 100 g, as the resolver sees it. *)
Definition density (product_name : string) : F :=
  match find_similar_product lower PRODUCTS_DB product_name with
  | Some (String _ _ as key) =>
    match dict_get PRODUCTS_DB key with
    | Some p => calories p
    | None => hundred
    end
  | _ => hundred
  end.

(** The filter of the comprehension that builds [remaining]. *)
Definition positive_mass (p : entry (F:=F)) : bool := ltb zero (snd p).

(** The item that the comprehension makes of a pool entry. *)
Definition fresh_item (p : entry (F:=F)) : item :=
  mkItem (fst p) (snd p) (quot (density (fst p)) hundred).

(** A day whose entries are positive amounts of the given names. *)
Definition day_from (names : list string) (day : list (entry (F:=F))) : Prop :=
  forall e, In e day -> ltb zero (snd e) = true /\ In (fst e) names.

(** Every item of a day at [mass / meals_count]. *)
Definition per_meal (products : list (entry (F:=F))) (meals_count : Z)
  : list entry :=
  map (fun p : entry => (fst p, quot (snd p) (of_Z meals_count))) products.

(** The entries of all the slots of a plan. *)
Definition all_slots (plan : MealPlan (F:=F)) : list entry :=
  breakfast plan ++ snack plan ++ lunch plan ++ dinner plan
  ++ match second_snack plan with Some l => l | None => [] end.

End Vocabulary.

Section ExactVocabulary.

Local Open Scope Q_scope.

(** A mass below [1e-9] g is set to zero. *)
Definition snap (w : Q) : Q := if ltb w eps9 then zero else w.

(** An item before and after a day. *)
Definition charged_step (it it' : item) : Prop :=
  name it' = name it /\ kcal_per_g it' = kcal_per_g it
  /\ 0 <= weight it' <= weight it.

(** Grams of one name in a day, over all days, and left in the pool. *)
Definition grams_in (n : string) (day : list (entry (F:=Q))) : Q :=
  py_sum (map snd (filter (fun e => fst e =? n)%string day)).

Definition assigned_total (n : string) (days : list (list (entry (F:=Q)))) : Q :=
  py_sum (map (grams_in n) days).

Definition weight_of (remaining : list (item (F:=Q))) (n : string) : Q :=
  match find (fun it => name it =? n)%string remaining with
  | Some it => weight it
  | None => 0
  end.

(** Grams given so far to an item, and the energy they carry. *)
Definition val (assigned : list (string * Q)) (it : item (F:=Q)) : Q :=
  dict_get_default assigned (name it) zero.

Definition energy (assigned : list (string * Q)) (remaining : list (item (F:=Q))) : Q :=
  py_sum (map (fun it => val assigned it * kcal_per_g it) remaining).

(** The proportional share of an item, in grams, before the clamp. *)
Definition share_grams (target_kcal total_kcal : Q) (it : item (F:=Q)) : Q :=
  target_kcal * (weight it * kcal_per_g it / total_kcal)
  / py_max (kcal_per_g it) eps9.

(** Grams the pass gives to one item. *)
Definition prop_grams (target_kcal total_kcal : Q) (it : item (F:=Q)) : Q :=
  if leb (weight it) eps9 then 0
  else
    let g := py_min (weight it) (share_grams target_kcal total_kcal it) in
    if ltb zero g then g else 0.

(** An assignment that gives no item less than 0 or more than it has. *)
Definition within (remaining : list (item (F:=Q))) (d : list (string * Q)) : Prop :=
  forall it, In it remaining -> 0 <= val d it <= weight it.

(** An item that the passes look at. *)
Definition active (it : item (F:=Q)) : bool := ltb eps9 (weight it).

(** The assignment after [assigned_grams[name] *= scale]. *)
Definition scaled (scale : Q) (d : list (string * Q)) : list (string * Q) :=
  map (fun kv : string * Q => (fst kv, mul (snd kv) scale)) d.

(** Densities that the guard [max(kcal_per_g, 1e-9)] leaves as they are. *)
Definition dense (remaining : list (item (F:=Q))) : Prop :=
  forall it, In it remaining -> eps9 <= kcal_per_g it.

(** The account of one name while the loop runs: all of its mass is in
    the days and in the pool, or the pool holds none and less than
    [1e-9] g went missing. *)
Definition accounted (total : Q) (days : list (list (entry (F:=Q))))
    (remaining : list (item (F:=Q))) (n : string) : Prop :=
  total == assigned_total n days + weight_of remaining n
  \/ (weight_of remaining n == 0
      /\ 0 <= total - assigned_total n days < eps9).

Variable lower : string -> string.
Variable PRODUCTS_DB : list (string * Product (F:=Q)).

(** Energy of a day: grams times the density of the name, per 100 g. *)
Definition bucket_kcal (day : list (entry (F:=Q))) : Q :=
  py_sum (map (fun e => snd e * density lower PRODUCTS_DB (fst e) / 100) day).

(** Every item carries the density the resolver gives to its name. *)
Definition consistent (remaining : list (item (F:=Q))) : Prop :=
  forall it, In it remaining ->
    kcal_per_g it = quot (density lower PRODUCTS_DB (name it)) hundred.

(** What every state of the loop satisfies on a pool of distinct names. *)
Definition pool_ok (remaining : list (item (F:=Q))) : Prop :=
  NoDup (map name remaining)
  /\ (forall it, In it remaining -> 0 <= weight it)
  /\ consistent remaining.

(** Energy of the pool: mass times density per 100 g, over the items
    that enter the plan. *)
Definition pool_kcal (products : list (entry (F:=Q))) : Q :=
  py_sum (map (fun p => snd p * (density lower PRODUCTS_DB (fst p) / 100))
              (filter positive_mass products)).

(** Energy of one entry of a basket, as [calculate_total_calories] adds
    it. *)
Definition entry_kcal (p : entry (F:=Q)) : Q :=
  density lower PRODUCTS_DB (fst p) * snd p / 100.

End ExactVocabulary.

Section BasketVocabulary.

Context {F : Type} {N : Num F}.
Variable lower : string -> string.

(** The names of a basket, case folded. *)
Definition folded_names (products : list (entry (F:=F))) : list string :=
  map (fun p => lower (fst p)) products.

(** The mass a basket holds under a name, case folded: that of the first
    entry that the loops of the cache would stop at. *)
Fixpoint basket_find (products : list (entry (F:=F))) (product_name : string)
  : option F :=
  match products with
  | [] => None
  | (name, weight) :: rest =>
    if lower name =? lower product_name then Some weight
    else basket_find rest product_name
  end.

(** The sum that [calculate_total_calories] builds, with the density of
    each name. *)
Definition calories_sum (PRODUCTS_DB : list (string * Product (F:=F)))
    (products : list (entry (F:=F))) : F :=
  fold_left
    (fun total p =>
       add total (quot (mul (density lower PRODUCTS_DB (fst p)) (snd p)) hundred))
    products zero.

End BasketVocabulary.

(** The ranges that the registration dialogue accepts. *)
Definition registered (age : Z) (weight height : Q) : Prop :=
  age_accepted age = true
  /\ weight_accepted weight = true
  /\ height_accepted height = true.

(** Grams over all the slots of a plan, and over a day. *)
Definition slots_total (plan : MealPlan (F:=Q)) : Q :=
  py_sum (map snd (all_slots plan)).

Definition day_total (products : list (entry (F:=Q))) : Q :=
  py_sum (map snd products).

(** The calories that [generate_meal_plan] adds up over the slots of a
    day, before it shows them as an integer. *)
Definition shown_kcal (lower : string -> string)
    (PRODUCTS_DB : list (string * Product (F:=Q))) (plan : MealPlan (F:=Q)) : Q :=
  bucket_kcal lower PRODUCTS_DB (all_slots plan).

(** Grams of one name over all the slots of all the days of a plan. *)
Definition served_total (n : string) (daily_plans : list (MealPlan (F:=Q))) : Q :=
  py_sum (map (fun plan => grams_in n (all_slots plan)) daily_plans).

(** ** Dictionaries *)

Section DictFacts.

Context {V : Type}.
Implicit Types (d : list (string * V)) (k : string) (v : V).

Lemma dict_get_set d k v k' :
  dict_get (dict_set d k v) k' = if k =? k' then Some v else dict_get d k'.
Proof.
  induction d as [|[k0 v0] d IH]; simpl.
  - destruct (k =? k'); reflexivity.
  - destruct (k0 =? k) eqn:E0; simpl.
    + apply String.eqb_eq in E0; subst k0.
      destruct (k =? k'); reflexivity.
    + rewrite IH. destruct (k0 =? k') eqn:E1; [|reflexivity].
      apply String.eqb_eq in E1; subst k0.
      rewrite String.eqb_sym, E0. reflexivity.
Qed.

Lemma dict_get_in_keys d k :
  In k (dict_keys d) <-> exists v, dict_get d k = Some v.
Proof.
  induction d as [|[k0 v0] d IH]; simpl.
  - split; [tauto | intros [v Hv]; discriminate].
  - destruct (k0 =? k) eqn:E0.
    + apply String.eqb_eq in E0; subst. split; eauto.
    + apply String.eqb_neq in E0. rewrite <- IH. tauto.
Qed.

Lemma dict_keys_set_in d k v :
  In k (dict_keys d) -> dict_keys (dict_set d k v) = dict_keys d.
Proof.
  induction d as [|[k0 v0] d IH]; simpl; [tauto|].
  destruct (k0 =? k) eqn:E0; simpl; [reflexivity|].
  apply String.eqb_neq in E0.
  intros [H|H]; [congruence | f_equal; auto].
Qed.

Lemma dict_keys_set_new d k v :
  ~ In k (dict_keys d) -> dict_set d k v = (d ++ [(k, v)])%list.
Proof.
  induction d as [|[k0 v0] d IH]; simpl; [reflexivity|].
  intros H. destruct (k0 =? k) eqn:E0.
  - apply String.eqb_eq in E0. tauto.
  - f_equal. apply IH. tauto.
Qed.

End DictFacts.

(** ** Facts that hold for every arithmetic *)

Section Generic.

Context {F : Type} {N : Num F}.
Variable lower : string -> string.
Variable PRODUCTS_DB : list (string * Product (F:=F)).

Local Notation "'find_similar'" := (find_similar_product lower PRODUCTS_DB).
Local Notation "'cal_per_gram'" := (calories_per_gram lower PRODUCTS_DB).

Lemma find_similar_in_db product_name key :
  find_similar product_name = Some key ->
  exists p, dict_get PRODUCTS_DB key = Some p.
Proof.
  unfold find_similar_product, dict_mem.
  destruct (dict_get PRODUCTS_DB (lower product_name)) as [p|] eqn:E.
  - intros [= <-]. eauto.
  - intros H. apply find_some in H. apply dict_get_in_keys, H.
Qed.

Lemma calories_per_gram_density product_name :
  cal_per_gram product_name = Ok (quot (density lower PRODUCTS_DB product_name) hundred).
Proof.
  unfold calories_per_gram, density.
  destruct (find_similar product_name) as [[|c key]|] eqn:E; try reflexivity.
  destruct (find_similar_in_db _ _ E) as [p Hp].
  unfold db_lookup. rewrite Hp. reflexivity.
Qed.

(** *** Resolution order *)

Lemma find_similar_exact product_name p :
  dict_get PRODUCTS_DB (lower product_name) = Some p ->
  find_similar product_name = Some (lower product_name).
Proof. intros H. unfold find_similar_product, dict_mem. rewrite H. reflexivity. Qed.

Lemma find_similar_partial product_name pre key post :
  dict_get PRODUCTS_DB (lower product_name) = None ->
  dict_keys PRODUCTS_DB = pre ++ key :: post ->
  (forall k, In k pre -> similar (lower product_name) k = false) ->
  similar (lower product_name) key = true ->
  find_similar product_name = Some key.
Proof.
  intros H Hk Hpre Hkey. unfold find_similar_product, dict_mem.
  rewrite H, Hk. clear Hk.
  induction pre as [|k0 pre IH]; simpl.
  - unfold similar in Hkey. rewrite Hkey. reflexivity.
  - pose proof (Hpre k0 (or_introl eq_refl)) as H0. unfold similar in H0.
    rewrite H0. apply IH. intros k Hin. apply Hpre. right. exact Hin.
Qed.

Lemma find_similar_none product_name :
  dict_get PRODUCTS_DB (lower product_name) = None ->
  (forall k, In k (dict_keys PRODUCTS_DB) -> similar (lower product_name) k = false) ->
  find_similar product_name = None.
Proof.
  intros H Hall. unfold find_similar_product, dict_mem. rewrite H.
  destruct (find _ _) as [k|] eqn:E; [|reflexivity].
  apply find_some in E. destruct E as [Hin Hk].
  apply Hall in Hin. unfold similar in Hin. congruence.
Qed.

(** For a catalog without the empty key the resolver follows the three
    steps in order. *)
Lemma resolution_order product_name :
  dict_get PRODUCTS_DB "" = None ->
  (forall p, dict_get PRODUCTS_DB (lower product_name) = Some p ->
     cal_per_gram product_name = Ok (quot (calories p) hundred))
  /\ (forall pre key post p,
        dict_get PRODUCTS_DB (lower product_name) = None ->
        dict_keys PRODUCTS_DB = pre ++ key :: post ->
        (forall k, In k pre -> similar (lower product_name) k = false) ->
        similar (lower product_name) key = true ->
        dict_get PRODUCTS_DB key = Some p ->
        cal_per_gram product_name = Ok (quot (calories p) hundred))
  /\ (dict_get PRODUCTS_DB (lower product_name) = None ->
      (forall k, In k (dict_keys PRODUCTS_DB) ->
         similar (lower product_name) k = false) ->
      cal_per_gram product_name = Ok (quot hundred hundred)).
Proof.
  intros Hempty. repeat split.
  - intros p Hp. unfold calories_per_gram.
    rewrite (find_similar_exact _ _ Hp).
    destruct (lower product_name) as [|c q] eqn:Eq; [congruence|].
    unfold db_lookup. rewrite Hp. reflexivity.
  - intros pre key post p H Hk Hpre Hkey Hp. unfold calories_per_gram.
    rewrite (find_similar_partial _ _ _ _ H Hk Hpre Hkey).
    destruct key as [|c q]; [congruence|].
    unfold db_lookup. rewrite Hp. reflexivity.
  - intros H Hall. unfold calories_per_gram.
    rewrite (find_similar_none _ H Hall). reflexivity.
Qed.

(** *** The initial [remaining] *)

Lemma initial_remaining_spec products :
  initial_remaining lower PRODUCTS_DB products
  = Ok (map (fresh_item lower PRODUCTS_DB) (filter positive_mass products)).
Proof.
  induction products as [|[n w] products IH]; simpl; [reflexivity|].
  unfold positive_mass at 1; simpl.
  destruct (ltb zero w); [|exact IH].
  rewrite calories_per_gram_density, IH. reflexivity.
Qed.

(** *** Shape of one iteration *)

Lemma apply_day_names assigned remaining :
  map name (snd (apply_day assigned remaining)) = map name remaining.
Proof.
  induction remaining as [|it rest IH]; simpl; [reflexivity|].
  destruct (apply_day assigned rest) as [day rest'] eqn:E. simpl in IH.
  unfold charge. destruct (ltb zero (charged_grams assigned it)); simpl;
    rewrite IH; reflexivity.
Qed.

Lemma apply_day_entries assigned remaining e :
  In e (fst (apply_day assigned remaining)) ->
  exists it, In it remaining /\ e = (name it, charged_grams assigned it)
             /\ ltb zero (charged_grams assigned it) = true.
Proof.
  induction remaining as [|it rest IH]; simpl; [tauto|].
  destruct (apply_day assigned rest) as [day rest'] eqn:E. simpl in IH.
  unfold charge. destruct (ltb zero (charged_grams assigned it)) eqn:Hpos; simpl.
  - intros [<-|Hin].
    + exists it. auto.
    + destruct (IH Hin) as (it' & ? & ? & ?). exists it'. auto.
  - intros Hin. destruct (IH Hin) as (it' & ? & ? & ?). exists it'. auto.
Qed.

Lemma plan_day_shape cap_per_day remaining day remaining' :
  plan_day cap_per_day remaining = Ok (Some (day, remaining')) ->
  exists assigned, apply_day assigned remaining = (day, remaining').
Proof.
  unfold plan_day.
  destruct (negb _); [discriminate|].
  destruct (leb _ eps9); [discriminate|].
  destruct (proportional_pass _ _ _ _) as [a0|]; [simpl|discriminate].
  destruct (day_energy _ _) as [e0|]; [simpl|discriminate].
  match goal with |- bind ?r _ = _ -> _ => destruct r as [a|] end;
    [simpl|discriminate].
  intros [= H]. exists a. exact H.
Qed.

Lemma build_days_from fuel cap_per_day : forall remaining days,
  Forall (day_from (map name remaining)) days ->
  Forall (day_from (map name remaining))
         (snd (build_days fuel cap_per_day remaining days)).
Proof.
  induction fuel as [|fuel IH]; intros remaining days Hdays; simpl;
    destruct (plan_day cap_per_day remaining) as [[[day remaining']|]|] eqn:E;
    simpl; try exact Hdays.
  destruct (plan_day_shape _ _ _ _ E) as [assigned Ha].
  assert (Hn : map name remaining' = map name remaining).
  { rewrite <- (apply_day_names assigned remaining), Ha. reflexivity. }
  rewrite <- Hn. apply IH. rewrite Hn.
  apply Forall_app. split; [exact Hdays|].
  constructor; [|constructor].
  intros e He.
  assert (He' : In e (fst (apply_day assigned remaining))) by (rewrite Ha; exact He).
  destruct (apply_day_entries _ _ _ He') as (it & Hit & -> & Hpos).
  simpl. split; [exact Hpos|]. apply in_map. exact Hit.
Qed.

Lemma positive_source products n :
  In n (map name (map (fresh_item lower PRODUCTS_DB) (filter positive_mass products))) ->
  exists w, In (n, w) products /\ ltb zero w = true.
Proof.
  rewrite map_map. intros H. apply in_map_iff in H.
  destruct H as ([n' w] & <- & Hin). apply filter_In in Hin.
  exists w. simpl. tauto.
Qed.

Lemma plan_days_from fuel products daily_calories calorie_excess_cap day e :
  In day (snd (plan_days lower PRODUCTS_DB fuel products
                 daily_calories calorie_excess_cap)) ->
  In e day ->
  ltb zero (snd e) = true
  /\ exists w, In (fst e, w) products /\ ltb zero w = true.
Proof.
  unfold plan_days. rewrite initial_remaining_spec. intros Hday He.
  pose proof (build_days_from fuel (of_Z (daily_calories + calorie_excess_cap))
                (map (fresh_item lower PRODUCTS_DB) (filter positive_mass products)) []
                (Forall_nil _)) as H.
  rewrite Forall_forall in H. destruct (H _ Hday _ He) as [Hpos Hn].
  split; [exact Hpos|]. apply positive_source. exact Hn.
Qed.

(** *** The slot distributor *)

Lemma distribute_products_names products meals_count plan e :
  distribute_products products meals_count = Ok plan ->
  In e (all_slots plan) ->
  exists g, In (fst e, g) products.
Proof.
  unfold distribute_products.
  destruct products as [|p0 products0] eqn:Ep.
  - intros [= <-]. simpl. tauto.
  - rewrite <- Ep. destruct (meals_count =? 0)%Z; [discriminate|].
    intros [= <-]. unfold all_slots; simpl.
    assert (Hslot : In e (per_meal products meals_count) ->
                    exists g, In (fst e, g) products).
    { unfold per_meal. intros H. apply in_map_iff in H.
      destruct H as ([n g] & <- & Hin). exists g. exact Hin. }
    fold (per_meal products meals_count).
    rewrite !in_app_iff.
    destruct (meals_count =? 5)%Z; simpl; tauto.
Qed.

Lemma mapM_in {A B} (f : A -> result B) l bs b :
  mapM f l = Ok bs -> In b bs -> exists a, In a l /\ f a = Ok b.
Proof.
  revert bs. induction l as [|a l IH]; simpl; intros bs.
  - intros [= <-]. simpl. tauto.
  - destruct (f a) as [b0|] eqn:Ea; [simpl|discriminate].
    destruct (mapM f l) as [bs0|]; [simpl|discriminate].
    intros [= <-] [<-|Hin].
    + exists a. auto.
    + destruct (IH _ eq_refl Hin) as (a' & ? & ?). exists a'. auto.
Qed.

End Generic.

(** ** The slot distributor *)

(** C8, as the code has it.  For a non-empty day and [meals_count] 4 or 5,
    [distribute_products] returns, in the order breakfast, snack, lunch,
    dinner, the same list in every slot: every item of the day, in the
    day's order, at [mass / meals_count]; [second_snack] is that list when
    [meals_count = 5] and is absent when it is 4.  In binary64, 400 g of
    rice gives 100 g per slot for four meals and 80 g for five. *)
Theorem equal_slot_division :
  (forall (F : Type) (N : Num F) (products : list (entry (F:=F))) (meals_count : Z),
      products <> [] ->
      (meals_count = 4 \/ meals_count = 5)%Z ->
      distribute_products products meals_count
      = Ok (let s := per_meal products meals_count in
            mkMealPlan s s s s (if (meals_count =? 5)%Z then Some s else None)))
  /\ distribute_products (F:=float) [("rice", 400%float)] 4
     = Ok (let s := [("rice", 100%float)] in mkMealPlan s s s s None)
  /\ distribute_products (F:=float) [("rice", 400%float)] 5
     = Ok (let s := [("rice", 80%float)] in mkMealPlan s s s s (Some s)).
Proof.
  split; [|split; vm_compute; reflexivity].
  intros F N products meals_count Hne Hmc.
  destruct products as [|p products]; [congruence|].
  unfold distribute_products, per_meal.
  destruct Hmc as [-> | ->]; reflexivity.
Qed.

Lemma equal_slot_division_witness :
  distribute_products (F:=Q) [("rice", 400%Q); ("egg", 120%Q)] 5
  = Ok (let s := [("rice", (400 / 5)%Q); ("egg", (120 / 5)%Q)] in
        mkMealPlan s s s s (Some s)).
Proof.
  apply (proj1 equal_slot_division Q Q_num [("rice", 400%Q); ("egg", 120%Q)] 5%Z).
  - discriminate.
  - right. reflexivity.
Defined.

(** C8 fails on the empty day: the early return leaves [second_snack]
    absent although [meals_count] is 5. *)
Lemma empty_day_five_meals :
  distribute_products (F:=float) [] 5 = Ok (mkMealPlan [] [] [] [] None)
  /\ ~ (exists s, distribute_products (F:=float) [] 5
                  = Ok (mkMealPlan [] [] [] [] (Some s))).
Proof.
  split; [reflexivity|]. intros [s H]. discriminate H.
Qed.




(** ** Masses that are not positive *)

(** C7, as the code has it.  Every entry of every day built by
    [create_multi_day_plan], and every entry of every meal slot it
    returns, carries the name of a pool item whose mass is greater than 0,
    and the grams of a day entry are greater than 0: an item of mass 0
    is never planned.  ([distribute_products] itself does not filter.) *)
Theorem planned_entries_have_positive_mass
    (F : Type) (N : Num F) (lower : string -> string)
    (PRODUCTS_DB : list (string * Product (F:=F)))
    (fuel : nat) (products : list (entry (F:=F)))
    (daily_calories meals_count calorie_excess_cap : Z) :
  (forall day e,
      In day (snd (plan_days lower PRODUCTS_DB fuel products
                     daily_calories calorie_excess_cap)) ->
      In e day ->
      ltb zero (snd e) = true
      /\ exists w, In (fst e, w) products /\ ltb zero w = true)
  /\ (forall plan e,
        In plan (snd (create_multi_day_plan lower PRODUCTS_DB fuel products
                        daily_calories meals_count calorie_excess_cap)) ->
        In e (all_slots plan) ->
        exists w, In (fst e, w) products /\ ltb zero w = true).
Proof.
  split.
  - intros day e. apply plan_days_from.
  - intros plan e. unfold create_multi_day_plan.
    destruct (plan_days _ _ _ _ _ _) as [st days] eqn:E.
    destruct st; simpl; try tauto.
    destruct (mapM _ days) as [plans|] eqn:Em; simpl; [|tauto].
    intros Hplan He.
    destruct (mapM_in _ _ _ _ Em Hplan) as (day & Hday & Hd).
    destruct (distribute_products_names _ _ _ _ Hd He) as [g Hg].
    assert (Hday' : In day (snd (plan_days lower PRODUCTS_DB fuel products
                                   daily_calories calorie_excess_cap)))
      by (rewrite E; exact Hday).
    destruct (plan_days_from _ _ fuel products _ _ day (fst e, g) Hday' Hg)
      as [_ Hw].
    exact Hw.
Qed.

Lemma planned_entries_have_positive_mass_witness :
  exists w, In ("nuts", w) [("tea", 0%float); ("nuts", 3000%float)]
            /\ ltb zero w = true.
Proof.
  apply (proj2 (planned_entries_have_positive_mass float float_num ascii_lower
                  demo_db 5 [("tea", 0%float); ("nuts", 3000%float)] 2000 4 0)
           (let s := [("nuts", 500%float)] in mkMealPlan s s s s None)
           ("nuts", 500%float)).
  - vm_compute. left. reflexivity.
  - vm_compute. left. reflexivity.
Defined.

(** C7 fails on the single-day path: [distribute_products], applied to a
    pool, puts an item of mass 0 into every slot. *)
Lemma zero_mass_in_single_day_slots :
  distribute_products (F:=float) [("tea", 0%float); ("rice", 400%float)] 4
  = Ok (let s := [("tea", 0%float); ("rice", 100%float)] in
        mkMealPlan s s s s None).
Proof. vm_compute. reflexivity. Qed.

(** C5, as the code has it.  An item whose mass is not greater than 0
    (negative, zero, or not a number) is dropped by the filter that builds
    [remaining]; the call goes on with the other items and gives what it
    gives for the pool without that item. *)
Theorem non_positive_mass_dropped
    (F : Type) (N : Num F) (lower : string -> string)
    (PRODUCTS_DB : list (string * Product (F:=F)))
    (fuel : nat) (pre post : list (entry (F:=F))) (n : string) (w : F)
    (daily_calories meals_count calorie_excess_cap : Z) :
  ltb zero w = false ->
  create_multi_day_plan lower PRODUCTS_DB fuel (pre ++ (n, w) :: post)
    daily_calories meals_count calorie_excess_cap
  = create_multi_day_plan lower PRODUCTS_DB fuel (pre ++ post)
      daily_calories meals_count calorie_excess_cap.
Proof.
  intros Hw. unfold create_multi_day_plan, plan_days.
  rewrite !initial_remaining_spec, !filter_app. simpl.
  unfold positive_mass at 2. simpl. rewrite Hw. reflexivity.
Qed.

Lemma non_positive_mass_dropped_witness :
  create_multi_day_plan ascii_lower demo_db 5
    ([("rice", 1000%float)] ++ ("chicken", (-5)%float) :: [("egg", nan)]) 2000 4 0
  = create_multi_day_plan ascii_lower demo_db 5
      ([("rice", 1000%float)] ++ [("egg", nan)]) 2000 4 0.
Proof.
  apply (non_positive_mass_dropped float float_num ascii_lower demo_db 5
           [("rice", 1000%float)] [("egg", nan)] "chicken" (-5)%float 2000 4 0).
  reflexivity.
Defined.

(** C5 fails: with a negative mass in the pool the call does not fail,
    it plans the remaining item. *)
Lemma negative_mass_not_rejected :
  create_multi_day_plan ascii_lower demo_db 5
    [("rice", (-5)%float); ("chicken", 100%float)] 2000 4 0
  = (Finished, [let s := [("chicken", 25%float)] in mkMealPlan s s s s None]).
Proof. vm_compute. reflexivity. Qed.

(** ** The resolver *)

(** C9 at a catalog that holds the empty key.  The query ["rice"] has no
    exact match; the first key that is a substring of it is [""], whose
    product has 50 kcal per 100 g; the name test [if db_product_name:]
    is false for [""], so the resolver answers the default 1 kcal/g. *)
Theorem empty_key_takes_default :
  let db := [("", mkProduct "" 50%float 0%float 0%float 0%float);
             ("rice", mkProduct "rice" 344%float 7%float 1%float 78%float)] in
  dict_get db "brown rice" = None
  /\ find_similar_product ascii_lower db "brown rice" = Some ""
  /\ dict_get db "" = Some (mkProduct "" 50%float 0%float 0%float 0%float)
  /\ calories_per_gram ascii_lower db "brown rice" = Ok 1%float
  /\ calculate_total_calories ascii_lower db [("brown rice", 100%float)]
     = Ok 100%float.
Proof. vm_compute. repeat split; reflexivity. Qed.

(** ** Exact arithmetic *)

Section Exact.

Local Open Scope Q_scope.

Lemma ltbP (x y : Q) : BoolSpec (x < y) (y <= x) (ltb x y).
Proof.
  cbn [ltb Q_num]. destruct (Qle_bool y x) eqn:E; simpl; constructor.
  - apply Qle_bool_iff. exact E.
  - apply Qnot_le_lt. intros H. apply Qle_bool_iff in H. congruence.
Qed.

Lemma lebP (x y : Q) : BoolSpec (x <= y) (y < x) (leb x y).
Proof.
  cbn [leb Q_num]. destruct (Qle_bool x y) eqn:E; constructor.
  - apply Qle_bool_iff. exact E.
  - apply Qnot_le_lt. intros H. apply Qle_bool_iff in H. congruence.
Qed.

Lemma is_zeroP (x : Q) : BoolSpec (x == 0) (~ x == 0) (is_zero x).
Proof.
  cbn [is_zero Q_num]. destruct (Qeq_bool x 0) eqn:E; constructor.
  - apply Qeq_bool_iff. exact E.
  - intros H. apply Qeq_bool_iff in H. congruence.
Qed.

Lemma py_min_cases (a b : Q) :
  (py_min a b = b /\ b < a) \/ (py_min a b = a /\ a <= b).
Proof. unfold py_min. destruct (ltbP b a); auto. Qed.

Lemma py_max_cases (a b : Q) :
  (py_max a b = b /\ a < b) \/ (py_max a b = a /\ b <= a).
Proof. unfold py_max. destruct (ltbP a b); auto. Qed.

Lemma py_div_nonzero (x y : Q) : ~ y == 0 -> py_div x y = Ok (x / y).
Proof. intros H. unfold py_div. destruct (is_zeroP y); [tauto | reflexivity]. Qed.

(** *** Sums *)

Lemma fold_add_shift (xs : list Q) (a : Q) :
  fold_left add xs a == a + fold_left add xs 0.
Proof.
  revert a. induction xs as [|x xs IH]; intros a; simpl.
  - lra.
  - pose proof (IH (add a x)) as H1. pose proof (IH (add 0 x)) as H2.
    cbn [add Q_num] in *. lra.
Qed.

Lemma py_sum_nil : py_sum (F:=Q) [] == 0.
Proof. reflexivity. Qed.

Lemma py_sum_cons (x : Q) (xs : list Q) : py_sum (x :: xs) == x + py_sum xs.
Proof.
  unfold py_sum. simpl. pose proof (fold_add_shift xs (add zero x)) as H.
  cbn [add zero Q_num] in *. lra.
Qed.

Lemma py_sum_app (xs ys : list Q) : py_sum (xs ++ ys) == py_sum xs + py_sum ys.
Proof.
  induction xs as [|x xs IH]; simpl.
  - rewrite py_sum_nil. lra.
  - rewrite !py_sum_cons, IH. lra.
Qed.

Lemma py_sum_map_le {A} (f g : A -> Q) (l : list A) :
  (forall a, In a l -> f a <= g a) ->
  py_sum (map f l) <= py_sum (map g l).
Proof.
  induction l as [|a l IH]; intros H; simpl.
  - rewrite py_sum_nil. lra.
  - rewrite !py_sum_cons.
    pose proof (H a (or_introl eq_refl)).
    assert (py_sum (map f l) <= py_sum (map g l)) by (apply IH; intros; apply H; right; assumption).
    lra.
Qed.

Lemma py_sum_map_eq {A} (f g : A -> Q) (l : list A) :
  (forall a, In a l -> f a == g a) ->
  py_sum (map f l) == py_sum (map g l).
Proof.
  intros H. apply Qle_antisym; apply py_sum_map_le; intros a Ha;
    rewrite (H a Ha); lra.
Qed.

Lemma py_sum_map_scale {A} (f : A -> Q) (c : Q) (l : list A) :
  py_sum (map (fun a => c * f a) l) == c * py_sum (map f l).
Proof.
  induction l as [|a l IH]; simpl.
  - rewrite py_sum_nil. lra.
  - rewrite !py_sum_cons, IH. lra.
Qed.

Lemma py_sum_map_plus {A} (f g : A -> Q) (l : list A) :
  py_sum (map (fun a => f a + g a) l) == py_sum (map f l) + py_sum (map g l).
Proof.
  induction l as [|a l IH]; simpl.
  - rewrite !py_sum_nil. lra.
  - rewrite !py_sum_cons, IH. lra.
Qed.

Lemma py_sum_map_nonneg {A} (f : A -> Q) (l : list A) :
  (forall a, In a l -> 0 <= f a) -> 0 <= py_sum (map f l).
Proof.
  induction l as [|a l IH]; intros H; simpl.
  - rewrite py_sum_nil. lra.
  - rewrite py_sum_cons.
    pose proof (H a (or_introl eq_refl)).
    assert (0 <= py_sum (map f l)) by (apply IH; intros; apply H; right; assumption).
    lra.
Qed.

Lemma py_sum_map_term {A} (f : A -> Q) (l : list A) (a : A) :
  (forall b, In b l -> 0 <= f b) -> In a l -> f a <= py_sum (map f l).
Proof.
  induction l as [|b l IH]; intros H Hin; simpl; [destruct Hin|].
  rewrite py_sum_cons.
  assert (0 <= py_sum (map f l))
    by (apply py_sum_map_nonneg; intros; apply H; right; assumption).
  pose proof (H b (or_introl eq_refl)).
  destruct Hin as [->|Hin]; [lra|].
  assert (f a <= py_sum (map f l)) by (apply IH; [intros; apply H; right|]; assumption).
  lra.
Qed.

(** *** Charging a day to the pool *)

Lemma snap_bounds (w : Q) : 0 <= w -> 0 <= snap w <= w.
Proof.
  intros H. unfold snap. destruct (ltbP w eps9); cbn [zero Q_num]; lra.
Qed.

Lemma charged_grams_bounds (assigned : list (string * Q)) (it : item) :
  0 <= weight it -> 0 <= charged_grams assigned it <= weight it.
Proof.
  intros Hw. unfold charged_grams.
  destruct (py_min_cases (dict_get_default assigned (name it) zero) (weight it))
    as [[-> ?]|[-> ?]];
    match goal with
    | |- context [py_max zero ?x] =>
      destruct (py_max_cases zero x) as [[-> ?]|[-> ?]]
    end; cbn [zero Q_num] in *; lra.
Qed.

Lemma charged_grams_id (assigned : list (string * Q)) (it : item) :
  0 <= dict_get_default assigned (name it) zero <= weight it ->
  charged_grams assigned it = dict_get_default assigned (name it) zero
  \/ (charged_grams assigned it = zero
      /\ dict_get_default assigned (name it) zero == 0).
Proof.
  intros H. unfold charged_grams.
  destruct (py_min_cases (dict_get_default assigned (name it) zero) (weight it))
    as [[-> ?]|[-> ?]]; [lra|].
  destruct (py_max_cases zero (dict_get_default assigned (name it) zero))
    as [[-> ?]|[-> ?]]; [left; reflexivity|].
  right. split; [reflexivity|]. cbn [zero Q_num] in *. lra.
Qed.

(** What [charge] does to one item of non-negative mass. *)
Lemma charge_spec (assigned : list (string * Q)) (it : item) :
  0 <= weight it ->
  let g := charged_grams assigned it in
  (0 < g /\ charge assigned it = (Some (name it, g), set_weight it (snap (weight it - g))))
  \/ (g == 0 /\ charge assigned it = (None, it)).
Proof.
  intros Hw g. pose proof (charged_grams_bounds assigned it Hw) as Hg.
  fold g in Hg. unfold charge. fold g. destruct (ltbP zero g); cbn [zero Q_num] in *.
  - left. split; [assumption|]. reflexivity.
  - right. split; [lra | reflexivity].
Qed.

Lemma apply_day_step (assigned : list (string * Q)) (remaining : list item) :
  (forall it, In it remaining -> 0 <= weight it) ->
  Forall2 charged_step remaining (snd (apply_day assigned remaining)).
Proof.
  induction remaining as [|it rest IH]; intros Hw; simpl; [constructor|].
  destruct (apply_day assigned rest) as [day rest'] eqn:E. simpl in IH.
  assert (Hit : 0 <= weight it) by (apply Hw; left; reflexivity).
  assert (Hrest : Forall2 charged_step rest rest')
    by (apply IH; intros; apply Hw; right; assumption).
  destruct (charge_spec assigned it Hit) as [[Hg ->]|[Hg ->]]; simpl;
    constructor; try assumption; unfold charged_step; simpl.
  - pose proof (charged_grams_bounds assigned it Hit).
    pose proof (snap_bounds (weight it - charged_grams assigned it)).
    repeat split; lra.
  - repeat split; lra.
Qed.

Lemma grams_in_absent (n : string) (day : list (entry (F:=Q))) :
  ~ In n (map fst day) -> grams_in n day == 0.
Proof.
  intros H. unfold grams_in.
  replace (filter (fun e => fst e =? n)%string day) with (@nil (entry (F:=Q))).
  - apply py_sum_nil.
  - symmetry. induction day as [|e day IH]; simpl; [reflexivity|].
    destruct (String.eqb_spec (fst e) n) as [<-|Hne].
    + exfalso. apply H. left. reflexivity.
    + apply IH. intros Hin. apply H. right. exact Hin.
Qed.

Lemma weight_of_absent (remaining : list (item (F:=Q))) (n : string) :
  ~ In n (map name remaining) -> weight_of remaining n = 0.
Proof.
  intros H. unfold weight_of.
  destruct (find _ remaining) as [it|] eqn:E; [|reflexivity].
  apply find_some in E. destruct E as [Hin Hn].
  apply String.eqb_eq in Hn. subst n.
  exfalso. apply H. apply in_map. exact Hin.
Qed.

Lemma weight_of_nonneg (remaining : list (item (F:=Q))) (n : string) :
  (forall it, In it remaining -> 0 <= weight it) -> 0 <= weight_of remaining n.
Proof.
  intros H. unfold weight_of.
  destruct (find _ remaining) as [it|] eqn:E; [|lra].
  apply find_some in E. apply H, E.
Qed.

Lemma apply_day_day_names (assigned : list (string * Q)) (remaining : list item) n :
  In n (map fst (fst (apply_day assigned remaining))) -> In n (map name remaining).
Proof.
  intros H. apply in_map_iff in H. destruct H as (e & <- & He).
  destruct (apply_day_entries _ _ _ He) as (it & Hit & -> & _).
  simpl. apply in_map. exact Hit.
Qed.

(** One day takes from an item no more than the item loses. *)
Lemma apply_day_account (assigned : list (string * Q)) (remaining : list item) n :
  NoDup (map name remaining) ->
  (forall it, In it remaining -> 0 <= weight it) ->
  grams_in n (fst (apply_day assigned remaining))
  + weight_of (snd (apply_day assigned remaining)) n
  <= weight_of remaining n.
Proof.
  induction remaining as [|it rest IH]; intros Hnd Hw; simpl.
  - unfold grams_in, weight_of. simpl. rewrite py_sum_nil. lra.
  - inversion Hnd as [|? ? Hnotin Hnd']; subst.
    assert (Hit : 0 <= weight it) by (apply Hw; left; reflexivity).
    assert (Hw' : forall it', In it' rest -> 0 <= weight it')
      by (intros; apply Hw; right; assumption).
    specialize (IH Hnd' Hw').
    pose proof (apply_day_day_names assigned rest) as Hnames.
    pose proof (apply_day_names assigned rest) as Hsame.
    destruct (apply_day assigned rest) as [day rest'] eqn:E. simpl in *.
    pose proof (charged_grams_bounds assigned it Hit) as Hg.
    pose proof (snap_bounds (weight it - charged_grams assigned it)) as Hs.
    destruct (charge_spec assigned it Hit) as [[Hpos ->]|[Hz ->]];
      unfold weight_of in *; simpl;
      destruct (String.eqb_spec (name it) n) as [<-|Hne].
    + assert (H0 : grams_in (name it) day == 0)
        by (apply grams_in_absent; intros Hin; apply Hnotin, Hnames, Hin).
      unfold grams_in in *. simpl. rewrite String.eqb_refl. simpl.
      rewrite py_sum_cons. lra.
    + unfold grams_in in *. simpl.
      destruct (String.eqb_spec (name it) n); [contradiction|]. exact IH.
    + assert (H0 : grams_in (name it) day == 0)
        by (apply grams_in_absent; intros Hin; apply Hnotin, Hnames, Hin).
      lra.
    + exact IH.
Qed.

Lemma assigned_total_snoc n days day :
  assigned_total n (days ++ [day]) == assigned_total n days + grams_in n day.
Proof.
  unfold assigned_total. rewrite map_app, py_sum_app. simpl.
  rewrite py_sum_cons, py_sum_nil. lra.
Qed.

Lemma Forall2_charged_names remaining remaining' :
  Forall2 charged_step remaining remaining' ->
  map name remaining' = map name remaining.
Proof.
  induction 1 as [|it it' r r' H _ IH]; simpl; [reflexivity|].
  destruct H as (-> & _). rewrite IH. reflexivity.
Qed.

Lemma Forall2_charged_nonneg remaining remaining' :
  Forall2 charged_step remaining remaining' ->
  forall it', In it' remaining' -> 0 <= weight it'.
Proof.
  induction 1 as [|it it' r r' H _ IH]; simpl; [tauto|].
  intros x [<-|Hx]; [|auto]. destruct H as (_ & _ & H). lra.
Qed.

Lemma build_days_account fuel cap_per_day n : forall remaining days,
  NoDup (map name remaining) ->
  (forall it, In it remaining -> 0 <= weight it) ->
  assigned_total n (snd (build_days fuel cap_per_day remaining days))
  <= assigned_total n days + weight_of remaining n.
Proof.
  induction fuel as [|fuel IH]; intros remaining days Hnd Hw; simpl;
    pose proof (weight_of_nonneg remaining n Hw);
    destruct (plan_day cap_per_day remaining) as [[[day remaining']|]|] eqn:E;
    simpl; try lra.
  destruct (plan_day_shape _ _ _ _ E) as [assigned Ha].
  pose proof (apply_day_step assigned remaining Hw) as Hstep.
  pose proof (apply_day_account assigned remaining n Hnd Hw) as Hacc.
  rewrite Ha in Hstep, Hacc. simpl in Hstep, Hacc.
  assert (Hnd' : NoDup (map name remaining'))
    by (rewrite (Forall2_charged_names _ _ Hstep); exact Hnd).
  pose proof (IH remaining' (days ++ [day]) Hnd'
                (Forall2_charged_nonneg _ _ Hstep)) as H1.
  pose proof (assigned_total_snoc n days day) as H2. lra.
Qed.

Variable lower : string -> string.
Variable PRODUCTS_DB : list (string * Product (F:=Q)).

Lemma fresh_names products :
  map name (map (fresh_item lower PRODUCTS_DB) products) = map fst products.
Proof. rewrite map_map. reflexivity. Qed.

Lemma NoDup_filter_names (products : list (entry (F:=Q))) f :
  NoDup (map fst products) -> NoDup (map fst (filter f products)).
Proof.
  induction products as [|p products IH]; simpl; intros H; [constructor|].
  inversion H as [|? ? Hnotin Hnd]; subst.
  destruct (f p); simpl; [constructor|]; auto.
  intros Hin. apply Hnotin. apply in_map_iff in Hin.
  destruct Hin as (e & He & Hin). apply filter_In in Hin.
  apply in_map_iff. exists e. tauto.
Qed.

Lemma NoDup_fst_unique {A} (l : list (string * A)) n w w' :
  NoDup (map fst l) -> In (n, w) l -> In (n, w') l -> w = w'.
Proof.
  induction l as [|[n0 w0] l IH]; simpl; intros Hnd H1 H2; [destruct H1|].
  inversion Hnd as [|? ? Hnotin Hnd']; subst.
  assert (Hfst : forall v, In (n0, v) l -> False).
  { intros v Hv. apply Hnotin. apply in_map_iff. exists (n0, v). auto. }
  destruct H1 as [H1|H1]; destruct H2 as [H2|H2].
  - congruence.
  - inversion H1; subst. destruct (Hfst _ H2).
  - inversion H2; subst. destruct (Hfst _ H1).
  - apply IH; assumption.
Qed.

Lemma initial_weight_of (products : list (entry (F:=Q))) n w :
  NoDup (map fst products) -> In (n, w) products -> 0 <= w ->
  weight_of (map (fresh_item lower PRODUCTS_DB) (filter positive_mass products)) n
  <= w.
Proof.
  intros Hnd Hin Hw. unfold weight_of.
  destruct (find _ _) as [it|] eqn:E; [|exact Hw].
  apply find_some in E. destruct E as [Hit Hn].
  apply String.eqb_eq in Hn. apply in_map_iff in Hit.
  destruct Hit as ([n' w'] & <- & Hin'). apply filter_In in Hin'.
  destruct Hin' as [Hin' _]. simpl in *. subst n'.
  rewrite (NoDup_fst_unique _ _ _ _ Hnd Hin' Hin). lra.
Qed.

End Exact.

(** ** The remaining-mass invariant *)


(** ** One iteration in exact arithmetic *)

Section Iteration.

Local Open Scope Q_scope.

Lemma val_set_same assigned (it : item (F:=Q)) v :
  val (dict_set assigned (name it) v) it = v.
Proof.
  unfold val, dict_get_default. rewrite dict_get_set, String.eqb_refl. reflexivity.
Qed.

Lemma val_set_other assigned (it it' : item (F:=Q)) v :
  name it <> name it' ->
  val (dict_set assigned (name it) v) it' = val assigned it'.
Proof.
  intros H. unfold val, dict_get_default. rewrite dict_get_set.
  destruct (String.eqb_spec (name it) (name it')); [contradiction | reflexivity].
Qed.

Lemma energy_ext assigned assigned' remaining :
  (forall it, In it remaining -> val assigned' it == val assigned it) ->
  energy assigned' remaining == energy assigned remaining.
Proof.
  intros H. unfold energy. apply py_sum_map_eq. intros it Hit.
  rewrite (H it Hit). reflexivity.
Qed.

Lemma energy_set assigned remaining (it : item (F:=Q)) v :
  NoDup (map name remaining) -> In it remaining ->
  energy (dict_set assigned (name it) v) remaining
  == energy assigned remaining + (v - val assigned it) * kcal_per_g it.
Proof.
  induction remaining as [|x rest IH]; intros Hnd Hin; [destruct Hin|].
  inversion Hnd as [|? ? Hnotin Hnd']; subst.
  unfold energy in *. simpl. rewrite !py_sum_cons.
  destruct Hin as [->|Hin].
  - rewrite val_set_same.
    assert (H : py_sum (map (fun it0 => val (dict_set assigned (name it) v) it0
                                        * kcal_per_g it0) rest)
                == py_sum (map (fun it0 => val assigned it0 * kcal_per_g it0) rest)).
    { apply py_sum_map_eq. intros y Hy. rewrite val_set_other; [reflexivity|].
      intros Heq. apply Hnotin. rewrite Heq. apply in_map. exact Hy. }
    lra.
  - rewrite val_set_other.
    + specialize (IH Hnd' Hin). lra.
    + intros Heq. apply Hnotin. rewrite <- Heq. apply in_map. exact Hin.
Qed.

(** *** The zero assignment and the day's energy *)

Lemma zero_assignment_from (items : list (item (F:=Q))) :
  forall d : list (string * Q),
  NoDup (dict_keys d ++ map name items) ->
  fold_left (fun d it => dict_set d (name it) zero) items d
  = d ++ map (fun it => (name it, zero)) items.
Proof.
  induction items as [|it items IH]; intros d Hnd; simpl.
  - rewrite app_nil_r. reflexivity.
  - rewrite dict_keys_set_new.
    + rewrite IH.
      * rewrite <- app_assoc. reflexivity.
      * unfold dict_keys in *. rewrite map_app. simpl.
        rewrite <- app_assoc. exact Hnd.
    + apply NoDup_remove_2 in Hnd. intros H. apply Hnd.
      apply in_or_app. left. exact H.
Qed.

Lemma zero_assignment_spec (remaining : list (item (F:=Q))) :
  NoDup (map name remaining) ->
  zero_assignment remaining = map (fun it => (name it, zero)) remaining.
Proof.
  intros H. unfold zero_assignment. rewrite zero_assignment_from; [reflexivity|].
  exact H.
Qed.

Lemma zero_assignment_keys (remaining : list (item (F:=Q))) :
  NoDup (map name remaining) ->
  dict_keys (zero_assignment remaining) = map name remaining.
Proof.
  intros H. rewrite zero_assignment_spec by exact H.
  unfold dict_keys. rewrite map_map. reflexivity.
Qed.

Lemma zero_assignment_val (remaining : list (item (F:=Q))) it :
  NoDup (map name remaining) ->
  val (zero_assignment remaining) it == 0.
Proof.
  intros H. rewrite zero_assignment_spec by exact H.
  unfold val, dict_get_default. clear H.
  induction remaining as [|x rest IH]; simpl; [reflexivity|].
  destruct (name x =? name it)%string; [reflexivity | exact IH].
Qed.

Lemma kcal_of_in (remaining : list (item (F:=Q))) it :
  NoDup (map name remaining) -> In it remaining ->
  kcal_of remaining (name it) = Ok (kcal_per_g it).
Proof.
  unfold kcal_of. induction remaining as [|x rest IH]; intros Hnd Hin; [destruct Hin|].
  inversion Hnd as [|? ? Hnotin Hnd']; subst. simpl.
  destruct Hin as [->|Hin].
  - rewrite String.eqb_refl. reflexivity.
  - destruct (String.eqb_spec (name x) (name it)) as [Heq|Hne].
    + exfalso. apply Hnotin. rewrite Heq. apply in_map. exact Hin.
    + apply IH; assumption.
Qed.

Lemma day_terms_spec (remaining : list (item (F:=Q))) :
  forall (items : list item) (d : list (string * Q)),
  dict_keys d = map name items ->
  NoDup (map name items) ->
  (forall it, In it items -> kcal_of remaining (name it) = Ok (kcal_per_g it)) ->
  exists terms,
    mapM (fun kv : string * Q =>
            k <- kcal_of remaining (fst kv) ;; Ok (mul (snd kv) k)) d = Ok terms
    /\ py_sum terms == energy d items.
Proof.
  induction items as [|it items IH]; intros d Hk Hnd Hkcal.
  - destruct d; [|discriminate]. exists []. split; reflexivity.
  - destruct d as [|[n v] d]; [discriminate|]. simpl in Hk.
    injection Hk as Hn Hk. subst n.
    inversion Hnd as [|? ? Hnotin Hnd']; subst.
    destruct (IH d Hk Hnd') as (terms & Hterms & Hsum).
    { intros x Hx. apply Hkcal. right. exact Hx. }
    exists (v * kcal_per_g it :: terms). split.
    + cbn [mapM fst snd]. rewrite (Hkcal it (or_introl eq_refl)).
      cbn [bind]. rewrite Hterms. reflexivity.
    + unfold energy in *. simpl. rewrite !py_sum_cons.
      unfold val at 1, dict_get_default. simpl. rewrite String.eqb_refl.
      assert (H : py_sum (map (fun x => val ((name it, v) :: d) x * kcal_per_g x) items)
                  == py_sum (map (fun x => val d x * kcal_per_g x) items)).
      { apply py_sum_map_eq. intros x Hx. unfold val, dict_get_default. simpl.
        destruct (String.eqb_spec (name it) (name x)) as [Heq|Hne]; [|reflexivity].
        exfalso. apply Hnotin. rewrite Heq. apply in_map. exact Hx. }
      lra.
Qed.

Lemma day_energy_spec (remaining : list (item (F:=Q))) d :
  dict_keys d = map name remaining ->
  NoDup (map name remaining) ->
  exists e, day_energy remaining d = Ok e /\ e == energy d remaining.
Proof.
  intros Hk Hnd.
  destruct (day_terms_spec remaining remaining d Hk Hnd) as (terms & Ht & Hs).
  { intros it Hit. apply kcal_of_in; assumption. }
  exists (py_sum terms). unfold day_energy. rewrite Ht. simpl. split; [reflexivity|exact Hs].
Qed.

(** *** The proportional pass *)

Lemma eps9_pos : 0 < eps9.
Proof. reflexivity. Qed.

Lemma eps6_pos : 0 < eps6.
Proof. reflexivity. Qed.

Lemma py_max_eps9_pos (k : Q) : 0 < py_max k eps9.
Proof.
  destruct (py_max_cases k eps9) as [[-> ?]|[-> ?]]; cbn [eps9 Q_num] in *; lra.
Qed.

Lemma prop_grams_bounds target_kcal total_kcal it :
  0 <= weight it -> 0 <= prop_grams target_kcal total_kcal it <= weight it.
Proof.
  intros Hw. unfold prop_grams. destruct (lebP (weight it) eps9); [lra|].
  cbv zeta.
  destruct (py_min_cases (weight it) (share_grams target_kcal total_kcal it))
    as [[-> ?]|[-> ?]];
    match goal with |- context [ltb zero ?g] => destruct (ltbP zero g) end;
    cbn [zero Q_num] in *; lra.
Qed.

Lemma proportional_pass_spec target_kcal total_kcal :
  ~ total_kcal == 0 ->
  forall (items : list (item (F:=Q))) (d : list (string * Q)),
  NoDup (map name items) ->
  (forall it, In it items -> In (name it) (dict_keys d)) ->
  exists d',
    proportional_pass target_kcal total_kcal items d = Ok d'
    /\ dict_keys d' = dict_keys d
    /\ (forall it, In it items ->
          val d' it == val d it + prop_grams target_kcal total_kcal it)
    /\ (forall n, ~ In n (map name items) -> dict_get d' n = dict_get d n).
Proof.
  intros HR. induction items as [|it items IH]; intros d Hnd Hkeys.
  - exists d. simpl. repeat split; tauto.
  - inversion Hnd as [|? ? Hnotin Hnd']; subst.
    assert (Hframe : forall d1 d',
               (forall n, ~ In n (map name items) -> dict_get d' n = dict_get d1 n) ->
               val d' it = val d1 it).
    { intros d1 d' H. unfold val, dict_get_default. rewrite (H _ Hnotin). reflexivity. }
    assert (Hother : forall x v, In x items -> val (dict_set d (name it) v) x = val d x).
    { intros x v Hx. apply val_set_other. intros Heq. apply Hnotin.
      rewrite Heq. apply in_map. exact Hx. }
    cbn [proportional_pass].
    destruct (lebP (weight it) eps9) as [Hlow|Hact].
    + destruct (IH d Hnd') as (d' & Hrun & Hk & Hval & Hfr).
      { intros x Hx. apply Hkeys. right. exact Hx. }
      exists d'. split; [exact Hrun|]. split; [exact Hk|]. split.
      * intros x [<-|Hx].
        -- rewrite (Hframe d d' Hfr). unfold prop_grams.
           destruct (lebP (weight it) eps9); lra.
        -- apply Hval. exact Hx.
      * intros n Hn. apply Hfr. simpl in Hn. tauto.
    + rewrite (py_div_nonzero _ _ HR). cbn [bind].
      rewrite py_div_nonzero
        by (pose proof (py_max_eps9_pos (kcal_per_g it)); lra).
      cbn [bind].
      set (g := py_min (weight it) _).
      assert (Hg : prop_grams target_kcal total_kcal it
                   = if ltb zero g then g else 0).
      { unfold prop_grams. destruct (lebP (weight it) eps9); [lra|]. reflexivity. }
      destruct (ltbP zero g) as [Hpos|Hnon].
      * destruct (proj1 (dict_get_in_keys d (name it)) (Hkeys it (or_introl eq_refl)))
          as [v Hv].
        rewrite Hv.
        destruct (IH (dict_set d (name it) (add v g)) Hnd')
          as (d' & Hrun & Hk & Hval & Hfr).
        { intros x Hx. rewrite dict_keys_set_in.
          - apply Hkeys. right. exact Hx.
          - apply Hkeys. left. reflexivity. }
        exists d'. split; [exact Hrun|]. split.
        { rewrite Hk. apply dict_keys_set_in. apply Hkeys. left. reflexivity. }
        split.
        -- intros x [<-|Hx].
           ++ rewrite (Hframe _ d' Hfr), val_set_same.
              unfold val, dict_get_default. rewrite Hv, Hg.
              cbn [add Q_num]. lra.
           ++ rewrite (Hval x Hx), Hother by exact Hx. reflexivity.
        -- intros n Hn. rewrite (Hfr n) by (simpl in Hn; tauto).
           rewrite dict_get_set.
           destruct (String.eqb_spec (name it) n) as [<-|Hne]; [|reflexivity].
           exfalso. apply Hn. left. reflexivity.
      * destruct (IH d Hnd') as (d' & Hrun & Hk & Hval & Hfr).
        { intros x Hx. apply Hkeys. right. exact Hx. }
        exists d'. split; [exact Hrun|]. split; [exact Hk|]. split.
        -- intros x [<-|Hx].
           ++ rewrite (Hframe d d' Hfr), Hg. lra.
           ++ apply Hval. exact Hx.
        -- intros n Hn. apply Hfr. simpl in Hn. tauto.
Qed.

(** *** The residual loop *)

Lemma Qdiv_pos (a b : Q) : 0 < a -> 0 < b -> 0 < a / b.
Proof. intros Ha Hb. apply Qlt_shift_div_l; [exact Hb | lra]. Qed.

Lemma Qdiv_mul_le (a b c : Q) : 0 < c -> a <= b / c -> a * c <= b.
Proof.
  intros Hc H. assert (E : b / c * c == b) by (field; lra).
  assert (a * c <= b / c * c) by (apply Qmult_le_compat_r; lra). lra.
Qed.

Lemma Qdiv_mul_cancel (b c : Q) : 0 < c -> b / c * c == b.
Proof. intros Hc. field. lra. Qed.

Lemma Qmul_le_mono (a k k' : Q) : 0 <= a -> k <= k' -> a * k <= a * k'.
Proof. intros Ha Hk. nra. Qed.

Lemma name_inj (remaining : list (item (F:=Q))) x y :
  NoDup (map name remaining) -> In x remaining -> In y remaining ->
  name x = name y -> x = y.
Proof.
  induction remaining as [|z rest IH]; intros Hnd Hx Hy Heq; [destruct Hx|].
  inversion Hnd as [|? ? Hnotin Hnd']; subst.
  destruct Hx as [->|Hx]; destruct Hy as [->|Hy]; try reflexivity.
  - exfalso. apply Hnotin. rewrite Heq. apply in_map. exact Hy.
  - exfalso. apply Hnotin. rewrite <- Heq. apply in_map. exact Hx.
  - apply IH; assumption.
Qed.

Lemma top_up_done (items : list (item (F:=Q))) d res :
  res <= eps6 -> top_up items d res = Ok (d, res).
Proof.
  intros H. destruct items as [|it items]; [reflexivity|].
  cbn [top_up]. destruct (lebP res eps6); [reflexivity | lra].
Qed.

Section TopUp.

Variable remaining : list (item (F:=Q)).
Hypothesis remaining_distinct : NoDup (map name remaining).

Lemma within_set d it v :
  within remaining d -> In it remaining -> 0 <= v <= weight it ->
  within remaining (dict_set d (name it) v).
Proof.
  intros Hd Hit Hv x Hx.
  destruct (String.eqb_spec (name it) (name x)) as [Heq|Hne].
  - assert (x = it) by (symmetry; apply (name_inj remaining); assumption).
    subst x. rewrite val_set_same. exact Hv.
  - rewrite val_set_other by exact Hne. apply Hd, Hx.
Qed.

Lemma top_up_spec : forall (items : list (item (F:=Q))) d res,
  NoDup (map name items) -> incl items remaining ->
  within remaining d -> 0 <= res ->
  exists d' res',
    top_up items d res = Ok (d', res')
    /\ within remaining d'
    /\ (forall it, In it remaining -> val d it <= val d' it)
    /\ 0 <= res'
    /\ energy d' remaining + res' <= energy d remaining + res
    /\ (forall it, ~ In (name it) (map name items) -> val d' it = val d it)
    /\ ((forall it, In it items -> eps9 <= kcal_per_g it) ->
        energy d' remaining + res' == energy d remaining + res
        /\ (res' <= eps6
            \/ forall it, In it items -> eps9 < weight it ->
                 val d' it == weight it)).
Proof.
  induction items as [|it items IH]; intros d res Hnd Hincl Hd Hres.
  { exists d, res. split; [reflexivity|]. split; [exact Hd|].
    split; [intros; lra|]. split; [exact Hres|]. split; [lra|].
    split; [reflexivity|]. intros _. split; [lra|]. right. intros it []. }
  inversion Hnd as [|? ? Hnotin Hnd']; subst.
  assert (Hit : In it remaining) by (apply Hincl; left; reflexivity).
  assert (Hincl' : incl items remaining)
    by (intros x Hx; apply Hincl; right; exact Hx).
  cbn [top_up].
  destruct (lebP res eps6) as [Hlow|Hhigh].
  { exists d, res. split; [reflexivity|]. split; [exact Hd|].
    split; [intros; lra|]. split; [exact Hres|]. split; [lra|].
    split; [reflexivity|]. intros _. split; [lra|]. left. exact Hlow. }
  assert (Hskip : forall d' res',
             top_up items d res = Ok (d', res') ->
             within remaining d' ->
             (forall x, In x remaining -> val d x <= val d' x) ->
             0 <= res' ->
             energy d' remaining + res' <= energy d remaining + res ->
             (forall x, ~ In (name x) (map name items) -> val d' x = val d x) ->
             ((forall x, In x items -> eps9 <= kcal_per_g x) ->
              energy d' remaining + res' == energy d remaining + res
              /\ (res' <= eps6
                  \/ forall x, In x items -> eps9 < weight x ->
                       val d' x == weight x)) ->
             (eps9 < weight it -> (forall x, In x (it :: items) -> eps9 <= kcal_per_g x) ->
              eps6 < res' -> val d it == weight it) ->
             exists d'0 res'0,
               top_up items d res = Ok (d'0, res'0)
               /\ within remaining d'0
               /\ (forall x, In x remaining -> val d x <= val d'0 x)
               /\ 0 <= res'0
               /\ energy d'0 remaining + res'0 <= energy d remaining + res
               /\ (forall x, ~ In (name x) (map name (it :: items)) ->
                     val d'0 x = val d x)
               /\ ((forall x, In x (it :: items) -> eps9 <= kcal_per_g x) ->
                   energy d'0 remaining + res'0 == energy d remaining + res
                   /\ (res'0 <= eps6
                       \/ forall x, In x (it :: items) -> eps9 < weight x ->
                            val d'0 x == weight x))).
  { intros d' res' Hrun Hd' Hmono Hres' Hen Hfr Hex Hhead.
    exists d', res'. split; [exact Hrun|]. split; [exact Hd'|].
    split; [exact Hmono|]. split; [exact Hres'|]. split; [exact Hen|]. split.
    - intros x Hx. apply Hfr. simpl in Hx. tauto.
    - intros Hk. destruct Hex as [Hex1 Hex2].
      { intros x Hx. apply Hk. right. exact Hx. }
      split; [exact Hex1|].
      destruct Hex2 as [Hex2|Hex2]; [left; exact Hex2|].
      destruct (Qlt_le_dec eps6 res') as [Hbig|Hsmall]; [|left; exact Hsmall].
      right. intros x [<-|Hx] Hact.
      + rewrite (Hfr it Hnotin). apply Hhead; assumption.
      + apply Hex2; assumption. }
  destruct (lebP (weight it) eps9) as [Hinactive|Hactive].
  { destruct (IH d res Hnd' Hincl' Hd Hres)
      as (d' & res' & Hrun & Hd' & Hmono & Hres' & Hen & Hfr & Hex).
    apply (Hskip d' res'); try assumption. intros. lra. }
  pose proof (py_max_eps9_pos (kcal_per_g it)) as Hkpg.
  rewrite py_div_nonzero by lra. cbn [bind].
  change (dict_get_default d (name it) zero) with (val d it).
  set (kpg := py_max (kcal_per_g it) eps9) in *.
  set (cur := val d it).
  set (can := py_max zero (sub (weight it) cur)).
  set (add_grams := py_min can (res / kpg)).
  pose proof (Hd it Hit) as Hcur. fold cur in Hcur.
  assert (Hcan : can == weight it - cur).
  { unfold can. destruct (py_max_cases zero (sub (weight it) cur)) as [[-> ?]|[-> ?]];
      cbn [zero sub Q_num] in *; lra. }
  pose proof eps6_pos as He6.
  assert (Hq : 0 < res / kpg) by (apply Qdiv_pos; lra).
  assert (Hadd : (add_grams = res / kpg /\ res / kpg < can)
                 \/ (add_grams = can /\ can <= res / kpg))
    by apply py_min_cases.
  assert (Hkk : kcal_per_g it <= kpg).
  { unfold kpg. destruct (py_max_cases (kcal_per_g it) eps9) as [[-> ?]|[-> ?]]; lra. }
  destruct (ltbP zero add_grams) as [Hpos|Hnon]; cbn [zero Q_num] in *.
  - assert (Hle : add_grams * kpg <= res).
    { apply Qdiv_mul_le; [lra|]. destruct Hadd as [[-> ?]|[-> ?]]; lra. }
    assert (Hcap : cur + add_grams <= weight it)
      by (destruct Hadd as [[-> ?]|[-> ?]]; lra).
    destruct (IH (dict_set d (name it) (add cur add_grams))
                 (sub res (mul add_grams kpg)) Hnd' Hincl')
      as (d' & res' & Hrun & Hd' & Hmono & Hres' & Hen & Hfr & Hex).
    { apply within_set; [exact Hd | exact Hit |]. cbn [add Q_num]. lra. }
    { cbn [sub mul Q_num]. lra. }
    pose proof (energy_set d remaining it (add cur add_grams)
                  remaining_distinct Hit) as Hset.
    fold cur in Hset. cbn [add sub mul Q_num] in *.
    pose proof (Qmul_le_mono add_grams _ _ (Qlt_le_weak _ _ Hpos) Hkk) as Hmk.
    exists d', res'. split; [exact Hrun|]. split; [exact Hd'|]. split.
    { intros x Hx. specialize (Hmono x Hx).
      destruct (String.eqb_spec (name it) (name x)) as [Heq|Hne].
      - assert (x = it) by (symmetry; apply (name_inj remaining); assumption).
        subst x. rewrite val_set_same in Hmono. fold cur. lra.
      - rewrite val_set_other in Hmono by exact Hne. exact Hmono. }
    split; [exact Hres'|]. split; [lra|]. split.
    { intros x Hx. rewrite Hfr by (simpl in Hx; tauto).
      apply val_set_other. simpl in Hx. tauto. }
    intros Hk. destruct Hex as [Hex1 Hex2].
    { intros x Hx. apply Hk. right. exact Hx. }
    assert (Hkeq : kpg = kcal_per_g it).
    { unfold kpg. pose proof (Hk it (or_introl eq_refl)).
      destruct (py_max_cases (kcal_per_g it) eps9) as [[? ?]|[-> ?]];
        [lra | reflexivity]. }
    rewrite Hkeq in *. split; [lra|].
    destruct Hex2 as [Hex2|Hex2]; [left; exact Hex2|].
    destruct Hadd as [[Ha Hlt]|[Ha Hge]].
    + left. assert (Hz : res - add_grams * kcal_per_g it <= eps6).
      { rewrite Ha, Qdiv_mul_cancel by lra. cbn [eps6 Q_num]. lra. }
      rewrite (top_up_done items _ _ Hz) in Hrun.
      injection Hrun as _ <-. exact Hz.
    + right. intros x [<-|Hx] Hact.
      * rewrite (Hfr it Hnotin), val_set_same, Ha. lra.
      * apply Hex2; assumption.
  - destruct (IH d res Hnd' Hincl' Hd Hres)
      as (d' & res' & Hrun & Hd' & Hmono & Hres' & Hen & Hfr & Hex).
    apply (Hskip d' res'); try assumption.
    intros _ _ _. fold cur. destruct Hadd as [[Ha ?]|[Ha ?]]; rewrite Ha in Hnon; lra.
Qed.

End TopUp.

(** *** The whole turn *)

Lemma val_scaled scale d it : val (scaled scale d) it == val d it * scale.
Proof.
  unfold val, dict_get_default, scaled.
  induction d as [|[n v] d IH]; simpl.
  - lra.
  - destruct (n =? name it)%string; [reflexivity | exact IH].
Qed.

Lemma first_pass target_kcal (remaining : list (item (F:=Q))) :
  NoDup (map name remaining) ->
  (forall it, In it remaining -> 0 <= weight it) ->
  ~ total_remaining_kcal remaining == 0 ->
  exists d1 e0,
    proportional_pass target_kcal (total_remaining_kcal remaining) remaining
      (zero_assignment remaining) = Ok d1
    /\ day_energy remaining d1 = Ok e0
    /\ e0 == energy d1 remaining
    /\ within remaining d1
    /\ (forall it, In it remaining ->
          val d1 it
          == prop_grams target_kcal (total_remaining_kcal remaining) it).
Proof.
  intros Hnd Hw HR.
  destruct (proportional_pass_spec target_kcal _ HR remaining
              (zero_assignment remaining) Hnd)
    as (d1 & Hrun & Hk & Hval & _).
  { intros it Hit. rewrite zero_assignment_keys by exact Hnd.
    apply in_map. exact Hit. }
  rewrite zero_assignment_keys in Hk by exact Hnd.
  destruct (day_energy_spec remaining d1 Hk Hnd) as (e0 & He & He0).
  assert (Hv : forall it, In it remaining ->
                 val d1 it
                 == prop_grams target_kcal (total_remaining_kcal remaining) it).
  { intros it Hit. rewrite (Hval it Hit).
    rewrite (zero_assignment_val remaining it Hnd). lra. }
  exists d1, e0. repeat split; try assumption.
  - rewrite (Hv it H).
    apply prop_grams_bounds. apply Hw. exact H.
  - rewrite (Hv it H).
    apply prop_grams_bounds. apply Hw. exact H.
Qed.

Lemma energy_scaled scale d (remaining : list (item (F:=Q))) :
  energy (scaled scale d) remaining == scale * energy d remaining.
Proof.
  unfold energy. rewrite <- py_sum_map_scale. apply py_sum_map_eq.
  intros it _. rewrite val_scaled. lra.
Qed.

Lemma total_remaining_kcal_eq (remaining : list (item (F:=Q))) :
  total_remaining_kcal remaining
  = py_sum (map (fun it => weight it * kcal_per_g it) remaining).
Proof. reflexivity. Qed.

Lemma share_exact target_kcal total_kcal (it : item (F:=Q)) :
  eps9 <= kcal_per_g it -> 0 < total_kcal ->
  share_grams target_kcal total_kcal it == weight it * (target_kcal / total_kcal).
Proof.
  intros Hk HR. pose proof eps9_pos. unfold share_grams.
  destruct (py_max_cases (kcal_per_g it) eps9) as [[-> ?]|[-> ?]]; [lra|].
  field. split; lra.
Qed.

Lemma prop_grams_le target_kcal total_kcal (it : item (F:=Q)) :
  eps9 <= kcal_per_g it -> 0 <= weight it ->
  0 < target_kcal <= total_kcal ->
  prop_grams target_kcal total_kcal it <= weight it * (target_kcal / total_kcal).
Proof.
  intros Hk Hw Ht.
  assert (Hr : 0 < target_kcal / total_kcal) by (apply Qdiv_pos; lra).
  pose proof (share_exact target_kcal total_kcal it Hk) as Hs.
  unfold prop_grams. destruct (lebP (weight it) eps9); [nra|].
  cbv zeta.
  destruct (py_min_cases (weight it) (share_grams target_kcal total_kcal it))
    as [[-> ?]|[-> ?]];
    match goal with |- context [ltb zero ?g] => destruct (ltbP zero g) end;
    cbn [zero Q_num] in *; try nra; rewrite <- Hs by lra; lra.
Qed.

Lemma prop_grams_exact target_kcal total_kcal (it : item (F:=Q)) :
  eps9 <= kcal_per_g it -> eps9 < weight it ->
  0 < target_kcal <= total_kcal ->
  prop_grams target_kcal total_kcal it == weight it * (target_kcal / total_kcal).
Proof.
  intros Hk Hw Ht. pose proof eps9_pos.
  assert (Hr : 0 < target_kcal / total_kcal <= 1).
  { split; [apply Qdiv_pos; lra|]. apply Qle_shift_div_r; lra. }
  pose proof (share_exact target_kcal total_kcal it Hk) as Hs.
  unfold prop_grams. destruct (lebP (weight it) eps9); [lra|].
  cbv zeta.
  assert (Hsw : share_grams target_kcal total_kcal it <= weight it)
    by (rewrite Hs by lra; nra).
  assert (Hsp : 0 < share_grams target_kcal total_kcal it)
    by (rewrite Hs by lra; nra).
  destruct (py_min_cases (weight it) (share_grams target_kcal total_kcal it))
    as [[-> ?]|[-> ?]];
    match goal with |- context [ltb zero ?g] => destruct (ltbP zero g) end;
    cbn [zero Q_num] in *; try lra; rewrite <- Hs by lra; lra.
Qed.

Lemma prop_energy_le target_kcal (remaining : list (item (F:=Q))) d :
  (forall it, In it remaining -> eps9 <= kcal_per_g it) ->
  (forall it, In it remaining -> 0 <= weight it) ->
  0 < target_kcal <= total_remaining_kcal remaining ->
  (forall it, In it remaining ->
     val d it == prop_grams target_kcal (total_remaining_kcal remaining) it) ->
  energy d remaining <= target_kcal.
Proof.
  intros Hk Hw Ht Hv. pose proof eps9_pos.
  set (R := total_remaining_kcal remaining) in *.
  assert (H1 : energy d remaining
               <= py_sum (map (fun it => target_kcal / R
                                         * (weight it * kcal_per_g it)) remaining)).
  { unfold energy. apply py_sum_map_le. intros it Hit.
    rewrite (Hv it Hit).
    pose proof (prop_grams_le target_kcal R it (Hk it Hit) (Hw it Hit) Ht).
    pose proof (Hk it Hit). nra. }
  rewrite py_sum_map_scale in H1. rewrite <- total_remaining_kcal_eq in H1.
  fold R in H1. assert (target_kcal / R * R == target_kcal) by (field; lra).
  lra.
Qed.

(** A turn of the loop either leaves the loop or charges an assignment
    that respects every mass and carries at most the day's target, up to
    the tolerance; with densities of at least [1e-9] kcal/g the charge
    covers the proportional share of every item and either reaches the
    target, up to the tolerance, or takes all of every item heavier
    than [1e-9] g. *)
Lemma plan_day_total cap_per_day (remaining : list (item (F:=Q))) :
  NoDup (map name remaining) ->
  (forall it, In it remaining -> 0 <= weight it) ->
  0 < cap_per_day ->
  (plan_day cap_per_day remaining = Ok None
   /\ (existsb active remaining = false
       \/ total_remaining_kcal remaining <= eps9))
  \/ (existsb active remaining = true
      /\ eps9 < total_remaining_kcal remaining
      /\ exists d,
           plan_day cap_per_day remaining = Ok (Some (apply_day d remaining))
           /\ within remaining d
           /\ energy d remaining
              <= py_min cap_per_day (total_remaining_kcal remaining) + eps6
           /\ ((forall it, In it remaining -> eps9 <= kcal_per_g it) ->
               (forall it, In it remaining ->
                  prop_grams (py_min cap_per_day (total_remaining_kcal remaining))
                    (total_remaining_kcal remaining) it <= val d it)
               /\ (py_min cap_per_day (total_remaining_kcal remaining) - eps6
                   <= energy d remaining
                   \/ forall it, In it remaining -> eps9 < weight it ->
                        val d it == weight it))).
Proof.
  intros Hnd Hw Hcap. unfold plan_day. fold active.
  destruct (existsb active remaining) eqn:Hact; cbn [negb]; [|left; auto].
  set (R := total_remaining_kcal remaining).
  destruct (lebP R eps9) as [Hlow|HR]; [left; auto|].
  right. split; [reflexivity|]. split; [exact HR|].
  pose proof eps9_pos as He9. pose proof eps6_pos as He6.
  set (target := py_min cap_per_day R).
  assert (Htarget : 0 < target /\ target <= cap_per_day /\ target <= R).
  { unfold target. destruct (py_min_cases cap_per_day R) as [[-> ?]|[-> ?]];
      repeat split; lra. }
  destruct (first_pass target remaining Hnd Hw)
    as (d1 & e0 & Hpass & Hday & He0 & Hd1 & Hv1).
  { fold R. lra. }
  fold R in Hpass, Hv1. rewrite Hpass. cbn [bind]. rewrite Hday. cbn [bind].
  assert (Hfirst : (forall it, In it remaining -> eps9 <= kcal_per_g it) ->
                   e0 <= target).
  { intros Hk. rewrite He0.
    apply prop_energy_le; try assumption. fold R. lra. }
  destruct (ltbP (add target eps6) e0) as [Hover|Hfit]; cbn [add Q_num] in *.
  - (* the day is scaled down to the target *)
    rewrite py_div_nonzero by lra. cbn [bind].
    fold (scaled (target / e0) d1).
    assert (Hs : 0 < target / e0 < 1).
    { split; [apply Qdiv_pos; lra|]. apply Qlt_shift_div_r; lra. }
    exists (scaled (target / e0) d1). split; [reflexivity|].
    assert (Hen : energy (scaled (target / e0) d1) remaining == target).
    { rewrite energy_scaled, <- He0. field. lra. }
    split; [|split].
    + intros it Hit. rewrite val_scaled. pose proof (Hd1 it Hit). nra.
    + lra.
    + intros Hk. specialize (Hfirst Hk). lra.
  - set (residual := py_max zero (sub target e0)).
    assert (Hres : (residual = sub target e0 /\ zero < sub target e0)
                   \/ (residual = zero /\ sub target e0 <= zero))
      by (apply py_max_cases).
    cbn [sub zero Q_num] in Hres.
    destruct (ltbP eps6 residual) as [Hfill|Hnofill].
    + destruct Hres as [[Hr Hr0]|[Hr _]]; [|rewrite Hr in Hfill; lra].
      destruct (top_up_spec remaining Hnd remaining d1 residual Hnd
                  (incl_refl _) Hd1)
        as (d' & res' & Hrun & Hd' & Hmono & Hres' & Hen & _ & Hex).
      { rewrite Hr. lra. }
      rewrite Hrun. cbn [bind fst].
      rewrite Hr in Hen, Hex.
      exists d'. split; [reflexivity|]. split; [exact Hd'|]. split; [lra|].
      intros Hk. split.
      * intros it Hit. rewrite <- (Hv1 it Hit). apply Hmono, Hit.
      * destruct (Hex Hk) as [Hex1 [Hex2|Hex2]]; [left; lra | right; exact Hex2].
    + exists d1. split; [reflexivity|]. split; [exact Hd1|]. split; [lra|].
      intros Hk. split.
      * intros it Hit. rewrite (Hv1 it Hit). lra.
      * left. destruct Hres as [[Hr ?]|[Hr ?]]; rewrite Hr in Hnofill; lra.
Qed.

End Iteration.

(** ** The cap on a day *)

Section Cap.

Local Open Scope Q_scope.

Variable lower : string -> string.
Variable PRODUCTS_DB : list (string * Product (F:=Q)).

Lemma bucket_kcal_cons e day :
  bucket_kcal lower PRODUCTS_DB (e :: day)
  == snd e * density lower PRODUCTS_DB (fst e) / 100 + bucket_kcal lower PRODUCTS_DB day.
Proof. unfold bucket_kcal. simpl. apply py_sum_cons. Qed.

Lemma bucket_energy d (remaining : list (item (F:=Q))) :
  (forall it, In it remaining -> 0 <= val d it <= weight it) ->
  consistent lower PRODUCTS_DB remaining ->
  bucket_kcal lower PRODUCTS_DB (fst (apply_day d remaining)) == energy d remaining.
Proof.
  induction remaining as [|it rest IH]; intros Hd Hc.
  - reflexivity.
  - assert (IH' : bucket_kcal lower PRODUCTS_DB (fst (apply_day d rest)) == energy d rest).
    { apply IH; intros x Hx; [apply Hd | apply Hc]; right; exact Hx. }
    pose proof (Hd it (or_introl eq_refl)) as Hit.
    pose proof (Hc it (or_introl eq_refl)) as Hk.
    cbn [quot hundred Q_num] in Hk.
    assert (Hg : charged_grams d it == val d it).
    { destruct (charged_grams_id d it Hit) as [->|[-> Hz]];
        [reflexivity | fold (val d it) in Hz; cbn [zero Q_num]; lra]. }
    unfold energy in *. cbn [map apply_day]. rewrite py_sum_cons.
    destruct (apply_day d rest) as [day rest'] eqn:E. cbn [fst] in IH'.
    assert (Hw : 0 <= weight it) by lra.
    destruct (charge_spec d it Hw) as [[Hpos ->]|[Hz ->]]; cbn [fst].
    + rewrite bucket_kcal_cons. cbn [fst snd]. rewrite Hk, IH', Hg. field.
    + rewrite IH'. rewrite Hg in Hz. rewrite Hz. lra.
Qed.

Lemma Forall2_in_right {A B} (P : A -> B -> Prop) l l' b :
  Forall2 P l l' -> In b l' -> exists a, In a l /\ P a b.
Proof.
  induction 1 as [|a0 b0 l l' H _ IH]; simpl; [tauto|].
  intros [<-|Hb].
  - exists a0. auto.
  - destruct (IH Hb) as (a & ? & ?). exists a. auto.
Qed.

Lemma pool_ok_step d (remaining : list (item (F:=Q))) :
  pool_ok lower PRODUCTS_DB remaining -> pool_ok lower PRODUCTS_DB (snd (apply_day d remaining)).
Proof.
  intros (Hnd & Hw & Hc).
  pose proof (apply_day_step d remaining Hw) as Hstep.
  split; [|split].
  - rewrite (Forall2_charged_names _ _ Hstep). exact Hnd.
  - exact (Forall2_charged_nonneg _ _ Hstep).
  - intros it' Hit'.
    destruct (Forall2_in_right _ _ _ _ Hstep Hit') as (it & Hit & Hn & Hk & _).
    rewrite Hn, Hk. apply Hc, Hit.
Qed.

Lemma pool_ok_initial (products : list (entry (F:=Q))) :
  NoDup (map fst products) ->
  pool_ok lower PRODUCTS_DB (map (fresh_item lower PRODUCTS_DB) (filter positive_mass products)).
Proof.
  intros Hnd. split; [|split].
  - rewrite fresh_names. apply NoDup_filter_names. exact Hnd.
  - intros it Hit. apply in_map_iff in Hit. destruct Hit as (p & <- & Hp).
    apply filter_In in Hp. destruct Hp as [_ Hp]. unfold positive_mass in Hp.
    simpl. destruct (ltbP zero (snd p)); [|discriminate].
    cbn [zero Q_num] in *. lra.
  - intros it Hit. apply in_map_iff in Hit. destruct Hit as (p & <- & _).
    reflexivity.
Qed.

Lemma build_days_cap fuel cap_per_day :
  0 < cap_per_day ->
  forall remaining days,
  pool_ok lower PRODUCTS_DB remaining ->
  Forall (fun day => bucket_kcal lower PRODUCTS_DB day <= cap_per_day + eps6) days ->
  Forall (fun day => bucket_kcal lower PRODUCTS_DB day <= cap_per_day + eps6)
         (snd (build_days fuel cap_per_day remaining days)).
Proof.
  intros Hcap. induction fuel as [|fuel IH]; intros remaining days Hok Hdays;
    destruct Hok as (Hnd & Hw & Hc);
    (destruct (plan_day_total cap_per_day remaining Hnd Hw Hcap)
      as [[Hrun _]|(_ & _ & d & Hrun & Hd & Hen & _)];
     cbn [build_days]; rewrite Hrun; [exact Hdays|]);
    destruct (apply_day d remaining) as [day remaining'] eqn:E;
    [exact Hdays|].
  apply IH.
  - pose proof (pool_ok_step d remaining (conj Hnd (conj Hw Hc))) as H.
    rewrite E in H. exact H.
  - apply Forall_app. split; [exact Hdays|]. constructor; [|constructor].
    pose proof (bucket_energy d remaining Hd Hc) as Hb. rewrite E in Hb.
    cbn [fst] in Hb. rewrite Hb.
    destruct (py_min_cases cap_per_day (total_remaining_kcal remaining))
      as [[Hm ?]|[Hm ?]]; rewrite Hm in Hen; lra.
Qed.

End Cap.




(** ** A capacity that is not positive *)

Section NegativeCap.

Local Open Scope Q_scope.

Variable lower : string -> string.
Variable PRODUCTS_DB : list (string * Product (F:=Q)).

Lemma prop_grams_negative_target target_kcal total_kcal (it : item (F:=Q)) :
  target_kcal < 0 -> 0 < total_kcal ->
  0 <= weight it -> 0 <= kcal_per_g it ->
  prop_grams target_kcal total_kcal it == 0.
Proof.
  intros Ht HR Hw Hk. unfold prop_grams.
  destruct (lebP (weight it) eps9); [reflexivity|]. cbv zeta.
  assert (Hshare : share_grams target_kcal total_kcal it <= 0).
  { unfold share_grams. pose proof (py_max_eps9_pos (kcal_per_g it)) as Hkpg.
    set (kpg := py_max (kcal_per_g it) eps9) in *.
    assert (H1 : 0 <= weight it * kcal_per_g it / total_kcal).
    { apply Qle_shift_div_l; [exact HR|]. nra. }
    assert (H2 : target_kcal * (weight it * kcal_per_g it / total_kcal) <= 0) by nra.
    apply Qle_shift_div_r; [exact Hkpg|]. lra. }
  destruct (py_min_cases (weight it) (share_grams target_kcal total_kcal it))
    as [[-> ?]|[-> ?]];
    match goal with |- context [ltb zero ?g] => destruct (ltbP zero g) end;
    cbn [zero Q_num] in *; lra.
Qed.

Lemma plan_day_negative_cap cap_per_day (remaining : list (item (F:=Q))) :
  NoDup (map name remaining) ->
  (forall it, In it remaining -> 0 <= weight it) ->
  (forall it, In it remaining -> 0 <= kcal_per_g it) ->
  cap_per_day <= -1 ->
  existsb active remaining = true ->
  eps9 < total_remaining_kcal remaining ->
  plan_day cap_per_day remaining = Raise ZeroDivisionError.
Proof.
  intros Hnd Hw Hk Hcap Hact HR. pose proof eps9_pos. pose proof eps6_pos as He6.
  unfold plan_day. fold active. rewrite Hact. cbn [negb].
  set (R := total_remaining_kcal remaining) in *.
  destruct (lebP R eps9); [lra|].
  assert (Htarget : py_min cap_per_day R = cap_per_day).
  { destruct (py_min_cases cap_per_day R) as [[? ?]|[-> ?]]; [lra | reflexivity]. }
  rewrite Htarget.
  destruct (first_pass cap_per_day remaining Hnd Hw)
    as (d1 & e0 & Hpass & Hday & He0 & _ & Hv1).
  { fold R. lra. }
  fold R in Hpass, Hv1. rewrite Hpass. cbn [bind]. rewrite Hday. cbn [bind].
  assert (Hz : e0 == 0).
  { rewrite He0. unfold energy.
    assert (Hzero : py_sum (map (fun it : item (F:=Q) => 0 * kcal_per_g it) remaining) == 0).
    { rewrite py_sum_map_scale. lra. }
    rewrite <- Hzero. apply py_sum_map_eq. intros it Hit.
    rewrite (Hv1 it Hit).
    rewrite prop_grams_negative_target; try lra; auto. }
  cbn [eps6 Q_num] in He6.
  destruct (ltbP (add cap_per_day eps6) e0) as [_|Hno];
    cbn [add eps6 Q_num] in *; [|lra].
  unfold py_div. destruct (is_zeroP e0); [reflexivity | contradiction].
Qed.

End NegativeCap.




(** ** Termination *)

Section Termination.

Local Open Scope Q_scope.

(** What is left after a day is what was there less what was charged. *)
Lemma remaining_kcal_step d (remaining : list (item (F:=Q))) :
  (forall it, In it remaining -> 0 <= val d it <= weight it) ->
  (forall it, In it remaining -> 0 <= kcal_per_g it) ->
  total_remaining_kcal (snd (apply_day d remaining))
  <= total_remaining_kcal remaining - energy d remaining.
Proof.
  rewrite !total_remaining_kcal_eq. unfold energy.
  induction remaining as [|it rest IH]; intros Hd Hk.
  - cbn [apply_day snd map]. rewrite py_sum_nil. lra.
  - assert (IH' : py_sum (map (fun x : item (F:=Q) => weight x * kcal_per_g x)
                            (snd (apply_day d rest)))
                  <= py_sum (map (fun x : item (F:=Q) => weight x * kcal_per_g x) rest)
                     - py_sum (map (fun x => val d x * kcal_per_g x) rest)).
    { apply IH; intros x Hx; [apply Hd | apply Hk]; right; exact Hx. }
    pose proof (Hd it (or_introl eq_refl)) as Hit.
    pose proof (Hk it (or_introl eq_refl)) as Hkit.
    assert (Hg : charged_grams d it == val d it).
    { destruct (charged_grams_id d it Hit) as [->|[-> Hz]];
        [reflexivity | fold (val d it) in Hz; cbn [zero Q_num]; lra]. }
    cbn [apply_day map].
    destruct (apply_day d rest) as [day rest'] eqn:E. cbn [snd] in IH'.
    assert (Hw : 0 <= weight it) by lra.
    pose proof (snap_bounds (weight it - charged_grams d it)) as Hs.
    destruct (charge_spec d it Hw) as [[Hpos ->]|[Hz ->]];
      cbn [snd map]; rewrite !py_sum_cons; cbn [set_weight weight kcal_per_g].
    + assert (snap (weight it - charged_grams d it) * kcal_per_g it
              <= (weight it - val d it) * kcal_per_g it) by nra.
      lra.
    + assert (val d it * kcal_per_g it == 0) by nra. lra.
Qed.

(** When every item heavier than [1e-9] g is charged in full, none is
    left for another turn. *)
Lemma exhausted_step d (remaining : list (item (F:=Q))) :
  (forall it, In it remaining -> 0 <= val d it <= weight it) ->
  (forall it, In it remaining -> eps9 < weight it -> val d it == weight it) ->
  existsb active (snd (apply_day d remaining)) = false.
Proof.
  pose proof eps9_pos as He9.
  induction remaining as [|it rest IH]; intros Hd Hfull; [reflexivity|].
  assert (IH' : existsb active (snd (apply_day d rest)) = false).
  { apply IH; intros x Hx; [apply Hd | apply Hfull]; right; exact Hx. }
  pose proof (Hd it (or_introl eq_refl)) as Hit.
  pose proof (Hfull it (or_introl eq_refl)) as Hf.
  assert (Hg : charged_grams d it == val d it).
  { destruct (charged_grams_id d it Hit) as [->|[-> Hz]];
      [reflexivity | fold (val d it) in Hz; cbn [zero Q_num]; lra]. }
  cbn [apply_day].
  destruct (apply_day d rest) as [day rest'] eqn:E. cbn [snd] in IH'.
  assert (Hw : 0 <= weight it) by lra.
  destruct (charge_spec d it Hw) as [[Hpos ->]|[Hz ->]];
    cbn [snd existsb]; rewrite IH', orb_false_r; unfold active;
    cbn [set_weight weight].
  - unfold snap.
    destruct (ltbP (weight it - charged_grams d it) eps9) as [Hs|Hs].
    + destruct (ltbP eps9 zero); [cbn [zero Q_num] in *; lra | reflexivity].
    + destruct (ltbP eps9 (weight it - charged_grams d it)) as [Hbig|]; [|reflexivity].
      assert (eps9 < weight it) by lra. specialize (Hf H). lra.
  - destruct (ltbP eps9 (weight it)) as [Hbig|]; [|reflexivity].
    specialize (Hf Hbig). lra.
Qed.

Lemma plan_day_exhausted cap_per_day (remaining : list (item (F:=Q))) :
  existsb active remaining = false -> plan_day cap_per_day remaining = Ok None.
Proof. intros H. unfold plan_day. fold active. rewrite H. reflexivity. Qed.

Lemma dense_step d (remaining : list (item (F:=Q))) :
  (forall it, In it remaining -> 0 <= weight it) ->
  dense remaining -> dense (snd (apply_day d remaining)).
Proof.
  intros Hw Hk it' Hit'.
  pose proof (apply_day_step d remaining Hw) as Hstep.
  destruct (Forall2_in_right _ _ _ _ Hstep Hit') as (it & Hit & _ & -> & _).
  apply Hk, Hit.
Qed.

(** A turn either takes at least [cap_per_day - 1e-6] kcal out of the
    pool or is the last one. *)
Lemma plan_day_progress cap_per_day (remaining : list (item (F:=Q))) :
  NoDup (map name remaining) ->
  (forall it, In it remaining -> 0 <= weight it) ->
  dense remaining ->
  0 < cap_per_day ->
  (plan_day cap_per_day remaining = Ok None)
  \/ (eps9 < total_remaining_kcal remaining
      /\ exists day remaining',
           plan_day cap_per_day remaining = Ok (Some (day, remaining'))
           /\ NoDup (map name remaining')
           /\ (forall it, In it remaining' -> 0 <= weight it)
           /\ dense remaining'
           /\ (plan_day cap_per_day remaining' = Ok None
               \/ total_remaining_kcal remaining'
                  <= total_remaining_kcal remaining - (cap_per_day - eps6))).
Proof.
  intros Hnd Hw Hk Hcap. pose proof eps9_pos as He9.
  destruct (plan_day_total cap_per_day remaining Hnd Hw Hcap)
    as [[Hrun _]|(Hact & HR & d & Hrun & Hd & Hen & Hex)]; [left; exact Hrun|].
  right. split; [exact HR|].
  destruct (Hex Hk) as [Hshare Hfill].
  pose proof (apply_day_step d remaining Hw) as Hstep.
  pose proof (dense_step d remaining Hw Hk) as Hdense.
  pose proof (exhausted_step d remaining Hd) as Hdone.
  pose proof (remaining_kcal_step d remaining Hd) as Hleft.
  destruct (apply_day d remaining) as [day remaining'] eqn:E.
  cbn [snd] in *.
  exists day, remaining'. split; [exact Hrun|].
  split; [rewrite (Forall2_charged_names _ _ Hstep); exact Hnd|].
  split; [exact (Forall2_charged_nonneg _ _ Hstep)|].
  split; [exact Hdense|].
  assert (Hleft' : total_remaining_kcal remaining'
                   <= total_remaining_kcal remaining - energy d remaining).
  { apply Hleft. intros it Hit. specialize (Hk it Hit). lra. }
  set (R := total_remaining_kcal remaining) in *.
  destruct (py_min_cases cap_per_day R) as [[Hm Hlt]|[Hm Hle]];
    rewrite Hm in *.
  - (* the whole pool fits in the day *)
    left. apply plan_day_exhausted, Hdone.
    intros it Hit Hbig.
    pose proof (prop_grams_exact R R it (Hk it Hit) Hbig) as Hp.
    assert (Hone : R / R == 1) by (field; lra).
    rewrite Hone in Hp.
    pose proof (Hshare it Hit). pose proof (Hd it Hit). lra.
  - destruct Hfill as [Hfill|Hfill].
    + right. lra.
    + left. apply plan_day_exhausted, Hdone, Hfill.
Qed.

Lemma build_days_finishes cap_per_day :
  0 < cap_per_day ->
  forall (fuel : nat) (remaining : list (item (F:=Q))) days,
  NoDup (map name remaining) ->
  (forall it, In it remaining -> 0 <= weight it) ->
  dense remaining ->
  total_remaining_kcal remaining <= inject_Z (Z.of_nat fuel) * (cap_per_day - eps6) ->
  fst (build_days fuel cap_per_day remaining days) = Finished.
Proof.
  intros Hcap. pose proof eps9_pos as He9.
  induction fuel as [|fuel IH]; intros remaining days Hnd Hw Hk HR;
    destruct (plan_day_progress cap_per_day remaining Hnd Hw Hk Hcap)
      as [Hrun|(Hbig & day & remaining' & Hrun & Hnd' & Hw' & Hk' & Hnext)];
    cbn [build_days]; rewrite Hrun; try reflexivity.
  - exfalso. change (inject_Z (Z.of_nat 0)) with 0 in HR. lra.
  - destruct Hnext as [Hlast|Hless].
    + destruct fuel; cbn [build_days]; rewrite Hlast; reflexivity.
    + apply IH; try assumption.
      rewrite Nat2Z.inj_succ, <- Z.add_1_r, inject_Z_plus in HR.
      change (inject_Z 1) with 1 in HR. lra.
Qed.

Lemma build_days_length {F} {N : Num F} (cap_per_day : F) :
  forall (fuel : nat) (remaining : list (item (F:=F))) days,
  (List.length (snd (build_days fuel cap_per_day remaining days))
   <= List.length days + fuel)%nat.
Proof.
  induction fuel as [|fuel IH]; intros remaining days; cbn [build_days];
    destruct (plan_day cap_per_day remaining) as [[[day remaining']|]|];
    cbn [snd]; try lia.
  specialize (IH remaining' (days ++ [day])).
  rewrite length_app in IH. simpl in IH. lia.
Qed.

End Termination.

(** The loop is left within [ceil (pool energy / (cap - 1e-6))] turns. *)
Lemma plan_days_finishes
    (lower : string -> string) (PRODUCTS_DB : list (string * Product (F:=Q)))
    (products : list (entry (F:=Q))) (daily_calories calorie_excess_cap : Z) :
  NoDup (map fst products) ->
  (0 < daily_calories + calorie_excess_cap)%Z ->
  (forall p, In p products -> (0 < snd p)%Q ->
     (1 # 1000000000 <= density lower PRODUCTS_DB (fst p) / 100)%Q) ->
  let cap := inject_Z (daily_calories + calorie_excess_cap) in
  let turns :=
    Z.to_nat (Qceiling (pool_kcal lower PRODUCTS_DB products
                        / (cap - (1 # 1000000)))) in
  exists days,
    plan_days lower PRODUCTS_DB turns products
      daily_calories calorie_excess_cap = (Finished, days)
    /\ (List.length days <= turns)%nat.
Proof.
  intros Hnd Hcap Hdens cap turns.
  assert (Hcap1 : (1 <= cap)%Q).
  { unfold cap. change 1%Q with (inject_Z 1). rewrite <- Zle_Qle. lia. }
  assert (Hcap0 : (0 < cap)%Q) by lra.
  set (r := map (fresh_item lower PRODUCTS_DB) (filter positive_mass products)).
  destruct (pool_ok_initial lower PRODUCTS_DB products Hnd) as (Hnd' & Hw' & _).
  fold r in Hnd', Hw'.
  assert (Hk : dense r).
  { intros it Hit. unfold r in Hit. apply in_map_iff in Hit.
    destruct Hit as (p & <- & Hp). apply filter_In in Hp. destruct Hp as [Hp Hpos].
    unfold positive_mass in Hpos.
    destruct (ltbP zero (snd p)) as [Hpos'|]; [|discriminate].
    exact (Hdens p Hp Hpos'). }
  assert (HE : total_remaining_kcal r = pool_kcal lower PRODUCTS_DB products).
  { unfold pool_kcal, r. rewrite total_remaining_kcal_eq, map_map. reflexivity. }
  assert (HE0 : (0 <= pool_kcal lower PRODUCTS_DB products)%Q).
  { rewrite <- HE, total_remaining_kcal_eq. apply py_sum_map_nonneg.
    intros it Hit. pose proof (Hw' it Hit). pose proof (Hk it Hit).
    pose proof eps9_pos. nra. }
  set (E := pool_kcal lower PRODUCTS_DB products) in *.
  assert (Hq : (0 <= E / (cap - (1 # 1000000)))%Q)
    by (apply Qle_shift_div_l; lra).
  assert (Hc : (0 <= Qceiling (E / (cap - (1 # 1000000))))%Z).
  { apply Qceiling_resp_le in Hq. exact Hq. }
  assert (Hfuel : (total_remaining_kcal r
                   <= inject_Z (Z.of_nat turns) * (cap - eps6))%Q).
  { unfold turns. rewrite Z2Nat.id by exact Hc. rewrite HE.
    pose proof (Qle_ceiling (E / (cap - (1 # 1000000)))) as Hceil.
    cbn [eps6 Q_num].
    assert (Hmul : (E / (cap - (1 # 1000000)) * (cap - (1 # 1000000)) == E)%Q)
      by (field; lra).
    assert ((E / (cap - (1 # 1000000)) * (cap - (1 # 1000000))
             <= inject_Z (Qceiling (E / (cap - (1 # 1000000))))
                * (cap - (1 # 1000000)))%Q)
      by (apply Qmult_le_compat_r; lra).
    lra. }
  pose proof (build_days_finishes cap Hcap0 turns r [] Hnd' Hw' Hk Hfuel) as Hfin.
  pose proof (build_days_length cap turns r []) as Hlen.
  unfold plan_days. rewrite initial_remaining_spec. fold r.
  change (of_Z (daily_calories + calorie_excess_cap)) with cap.
  destruct (build_days turns cap r []) as [st days].
  cbn [fst snd] in *. subst st. exists days. split; [reflexivity|].
  simpl in Hlen. exact Hlen.
Qed.




(** ** Conservation *)

Section Conservation.

Local Open Scope Q_scope.

(** A day and the pool after it account for the mass of every name,
    except for a rest below [1e-9] g that is set to zero. *)
Lemma apply_day_conserve (assigned : list (string * Q)) (remaining : list item) n :
  NoDup (map name remaining) ->
  (forall it, In it remaining -> 0 <= weight it) ->
  grams_in n (fst (apply_day assigned remaining))
  + weight_of (snd (apply_day assigned remaining)) n
  == weight_of remaining n
  \/ (weight_of (snd (apply_day assigned remaining)) n == 0
      /\ 0 <= weight_of remaining n
              - grams_in n (fst (apply_day assigned remaining)) < eps9).
Proof.
  induction remaining as [|it rest IH]; intros Hnd Hw.
  - left. unfold grams_in, weight_of. simpl. rewrite py_sum_nil. lra.
  - inversion Hnd as [|? ? Hnotin Hnd']; subst.
    assert (Hit : 0 <= weight it) by (apply Hw; left; reflexivity).
    assert (Hw' : forall it', In it' rest -> 0 <= weight it')
      by (intros; apply Hw; right; assumption).
    specialize (IH Hnd' Hw').
    pose proof (apply_day_day_names assigned rest) as Hnames.
    cbn [apply_day].
    destruct (apply_day assigned rest) as [day rest'] eqn:E. cbn [fst snd] in *.
    pose proof (charged_grams_bounds assigned it Hit) as Hg.
    destruct (charge_spec assigned it Hit) as [[Hpos ->]|[Hz ->]];
      cbn [fst snd]; unfold weight_of in *; cbn [find name set_weight];
      destruct (String.eqb_spec (name it) n) as [<-|Hne]; cbn [weight].
    + assert (H0 : grams_in (name it) day == 0)
        by (apply grams_in_absent; intros Hin; apply Hnotin, Hnames, Hin).
      unfold grams_in in *. cbn [filter fst]. rewrite String.eqb_refl.
      cbn [map snd]. rewrite py_sum_cons. unfold snap.
      destruct (ltbP (weight it - charged_grams assigned it) eps9);
        cbn [zero Q_num weight set_weight]; [right; split | left]; lra.
    + unfold grams_in in *. cbn [filter fst].
      destruct (String.eqb_spec (name it) n); [contradiction|]. exact IH.
    + assert (H0 : grams_in (name it) day == 0)
        by (apply grams_in_absent; intros Hin; apply Hnotin, Hnames, Hin).
      left. lra.
    + exact IH.
Qed.

Lemma grams_in_nonneg (assigned : list (string * Q)) (remaining : list item) n :
  (forall it, In it remaining -> 0 <= weight it) ->
  0 <= grams_in n (fst (apply_day assigned remaining)).
Proof.
  intros Hw. unfold grams_in. rewrite <- (map_id (filter _ _)) at 1.
  rewrite map_map. apply py_sum_map_nonneg. intros e He.
  apply filter_In in He. destruct He as [He _].
  destruct (apply_day_entries _ _ _ He) as (it & Hit & -> & _). cbn [snd].
  apply charged_grams_bounds, Hw, Hit.
Qed.

Lemma accounted_step total days assigned (remaining : list item) n :
  NoDup (map name remaining) ->
  (forall it, In it remaining -> 0 <= weight it) ->
  accounted total days remaining n ->
  accounted total (days ++ [fst (apply_day assigned remaining)])
    (snd (apply_day assigned remaining)) n.
Proof.
  intros Hnd Hw Hacc.
  pose proof (apply_day_conserve assigned remaining n Hnd Hw) as Hc.
  pose proof (apply_day_account assigned remaining n Hnd Hw) as Ha.
  pose proof (grams_in_nonneg assigned remaining n Hw) as Hg.
  pose proof (apply_day_step assigned remaining Hw) as Hstep.
  pose proof (weight_of_nonneg _ n (Forall2_charged_nonneg _ _ Hstep)) as Hw1.
  pose proof (assigned_total_snoc n days (fst (apply_day assigned remaining))) as Hs.
  unfold accounted in *.
  destruct Hacc as [Hacc|[Hz Hacc]]; destruct Hc as [Hc|[Hc1 Hc2]];
    try (left; lra); right; split; lra.
Qed.

(** When the loop is left, at most [1e-6] g of an item of density at
    least 0.001 kcal/g is still in the pool. *)
Lemma exit_weight cap_per_day (remaining : list (item (F:=Q))) n :
  (forall it, In it remaining -> 0 <= weight it) ->
  (forall it, In it remaining -> 1 # 1000 <= kcal_per_g it) ->
  plan_day cap_per_day remaining = Ok None ->
  weight_of remaining n <= eps6.
Proof.
  intros Hw Hk Hrun. pose proof eps6_pos as He6.
  unfold weight_of. destruct (find _ remaining) as [it|] eqn:E; [|lra].
  apply find_some in E. destruct E as [Hit _].
  unfold plan_day in Hrun. fold active in Hrun.
  destruct (existsb active remaining) eqn:Hact; cbn [negb] in Hrun.
  - destruct (lebP (total_remaining_kcal remaining) eps9) as [HR|];
      [|destruct (proportional_pass _ _ _ _); cbn [bind] in Hrun;
        [destruct (day_energy _ _); cbn [bind] in Hrun;
         [match type of Hrun with
          | bind ?r _ = _ => destruct r; cbn [bind] in Hrun
          end|]|]; discriminate].
    rewrite total_remaining_kcal_eq in HR.
    assert (Hterm : weight it * kcal_per_g it
                    <= py_sum (map (fun x : item (F:=Q) => weight x * kcal_per_g x)
                                 remaining)).
    { apply (py_sum_map_term (fun x : item (F:=Q) => weight x * kcal_per_g x)).
      - intros x Hx. pose proof (Hw x Hx). pose proof (Hk x Hx). nra.
      - exact Hit. }
    pose proof (Hw it Hit). pose proof (Hk it Hit).
    cbn [eps9 eps6 Q_num] in *. nra.
  - assert (Hna : active it = false).
    { destruct (active it) eqn:Ha; [|reflexivity].
      assert (existsb active remaining = true)
        by (apply existsb_exists; exists it; auto).
      congruence. }
    unfold active in Hna. destruct (ltbP eps9 (weight it)); [discriminate|].
    cbn [eps9 eps6 Q_num] in *. lra.
Qed.

Lemma build_days_conserve fuel cap_per_day total n :
  forall (remaining : list (item (F:=Q))) days,
  NoDup (map name remaining) ->
  (forall it, In it remaining -> 0 <= weight it) ->
  (forall it, In it remaining -> 1 # 1000 <= kcal_per_g it) ->
  accounted total days remaining n ->
  fst (build_days fuel cap_per_day remaining days) = Finished ->
  0 <= total - assigned_total n (snd (build_days fuel cap_per_day remaining days))
  <= eps6.
Proof.
  pose proof eps6_pos as He6. pose proof eps9_pos as He9.
  assert (Hexit : forall (remaining : list (item (F:=Q))) days,
             (forall it, In it remaining -> 0 <= weight it) ->
             (forall it, In it remaining -> 1 # 1000 <= kcal_per_g it) ->
             accounted total days remaining n ->
             plan_day cap_per_day remaining = Ok None ->
             0 <= total - assigned_total n days <= eps6).
  { intros remaining days Hw Hk Hacc E.
    pose proof (exit_weight cap_per_day remaining n Hw Hk E).
    pose proof (weight_of_nonneg remaining n Hw).
    unfold accounted in Hacc. cbn [eps9 eps6 Q_num] in *.
    destruct Hacc as [Hacc|[Hz Hacc]]; lra. }
  induction fuel as [|fuel IH]; intros remaining days Hnd Hw Hk Hacc;
    cbn [build_days];
    destruct (plan_day cap_per_day remaining) as [[[day remaining']|]|] eqn:E;
    cbn [fst snd]; intros Hfin; try discriminate;
    try (apply (Hexit remaining); assumption).
  destruct (plan_day_shape _ _ _ _ E) as [assigned Ha].
  pose proof (apply_day_step assigned remaining Hw) as Hstep.
  pose proof (accounted_step total days assigned remaining n Hnd Hw Hacc) as Hacc'.
  rewrite Ha in Hstep, Hacc'. cbn [fst snd] in Hstep, Hacc'.
  apply IH; try assumption.
  - rewrite (Forall2_charged_names _ _ Hstep). exact Hnd.
  - exact (Forall2_charged_nonneg _ _ Hstep).
  - intros it' Hit'.
    destruct (Forall2_in_right _ _ _ _ Hstep Hit') as (it & Hit & _ & -> & _).
    apply Hk, Hit.
Qed.

End Conservation.

Lemma initial_weight_eq (lower : string -> string)
    (PRODUCTS_DB : list (string * Product (F:=Q)))
    (products : list (entry (F:=Q))) n w :
  NoDup (map fst products) -> In (n, w) products -> (0 < w)%Q ->
  weight_of (map (fresh_item lower PRODUCTS_DB) (filter positive_mass products)) n
  = w.
Proof.
  intros Hnd Hin Hw. unfold weight_of.
  destruct (find _ _) as [it|] eqn:E.
  - apply find_some in E. destruct E as [Hit Hn].
    apply String.eqb_eq in Hn. apply in_map_iff in Hit.
    destruct Hit as ([n' w'] & <- & Hin'). apply filter_In in Hin'.
    destruct Hin' as [Hin' _]. simpl in *. subst n'.
    apply (NoDup_fst_unique _ _ _ _ Hnd Hin' Hin).
  - exfalso.
    assert (Hitem : In (fresh_item lower PRODUCTS_DB (n, w))
                       (map (fresh_item lower PRODUCTS_DB)
                            (filter positive_mass products))).
    { apply in_map, filter_In. split; [exact Hin|].
      unfold positive_mass. cbn [snd]. destruct (ltbP zero w); [reflexivity|].
      cbn [zero Q_num] in *. lra. }
    pose proof (find_none _ _ E _ Hitem) as Hf. cbn [fresh_item name fst] in Hf.
    rewrite String.eqb_refl in Hf. discriminate Hf.
Qed.

(** Conservation where it holds: on a pool of distinct names whose items
    have a density of at least 0.001 kcal/g, with a positive capacity, the
    call returns, and the days give every item its mass back to within
    [1e-6] g.  (Exact rational arithmetic.) *)
Lemma conservation_dense
    (lower : string -> string) (PRODUCTS_DB : list (string * Product (F:=Q)))
    (products : list (entry (F:=Q))) (daily_calories calorie_excess_cap : Z) :
  NoDup (map fst products) ->
  (0 < daily_calories + calorie_excess_cap)%Z ->
  (forall p, In p products -> (0 < snd p)%Q ->
     (1 # 1000 <= density lower PRODUCTS_DB (fst p) / 100)%Q) ->
  exists fuel days,
    plan_days lower PRODUCTS_DB fuel products daily_calories calorie_excess_cap
    = (Finished, days)
    /\ forall n w, In (n, w) products -> (0 < w)%Q ->
         (0 <= w - assigned_total n days <= 1 # 1000000)%Q.
Proof.
  intros Hnd Hcap Hdens.
  destruct (plan_days_finishes lower PRODUCTS_DB products
              daily_calories calorie_excess_cap Hnd Hcap)
    as (days & Hrun & _).
  { intros p Hp Hpos. pose proof (Hdens p Hp Hpos). lra. }
  eexists. exists days. split; [exact Hrun|].
  intros n w Hin Hw.
  unfold plan_days in Hrun. rewrite initial_remaining_spec in Hrun.
  destruct (pool_ok_initial lower PRODUCTS_DB products Hnd) as (Hnd' & Hw' & _).
  match type of Hrun with
  | build_days ?fuel ?cap ?r [] = _ =>
    pose proof (build_days_conserve fuel cap w n r [] Hnd' Hw') as H
  end.
  rewrite Hrun in H. cbn [fst snd eps6 Q_num] in H. apply H; [| |reflexivity].
  - intros it Hit. apply in_map_iff in Hit.
    destruct Hit as (p & <- & Hp). apply filter_In in Hp. destruct Hp as [Hp Hpos].
    unfold positive_mass in Hpos.
    destruct (ltbP zero (snd p)) as [Hpos'|]; [|discriminate].
    exact (Hdens p Hp Hpos').
  - left. rewrite (initial_weight_eq lower PRODUCTS_DB products n w Hnd Hin Hw).
    unfold assigned_total. cbn [map]. rewrite py_sum_nil. lra.
Qed.

(** C2 at a pool with a product of zero energy.  1000 g of rice and
    500 g of water (0 kcal per 100 g) at 2000 kcal a day: the loop is left
    on [total_remaining_kcal <= 1e-9] while the 500 g of water are still in
    the pool; the plan has two days, both of rice only.  The same happens
    to 1 g of a product of 1e-8 kcal per 100 g, for which no day is built.
    (Binary64, then exact arithmetic.) *)
Theorem zero_energy_item_is_lost :
  (let run := plan_days (F:=float) ascii_lower demo_db 10
                [("rice", 1000%float); ("water", 500%float)] 2000 0 in
   fst run = Finished
   /\ map (map fst) (snd run) = [["rice"]; ["rice"]])
  /\ (let run := plan_days (F:=Q) ascii_lower demo_db 10
                   [("rice", 1000%Q); ("water", 500%Q)] 2000 0 in
      fst run = Finished
      /\ map (map fst) (snd run) = [["rice"]; ["rice"]]
      /\ (assigned_total "water" (snd run) == 0)%Q
      /\ (assigned_total "rice" (snd run) == 1000)%Q)
  /\ plan_days (F:=Q) ascii_lower
       [("agar", mkProduct "agar" (1 # 100000000)%Q 0%Q 0%Q 0%Q)] 10
       [("agar", 1%Q)] 2000 0
     = (Finished, []).
Proof. vm_compute. repeat split; reflexivity. Qed.

(** ** Scenarios in binary64 *)

(** 1000 g of rice at 2000 kcal a day: two days. *)
Example scenario_single_item :
  let run := plan_days (F:=float) ascii_lower demo_db 10
               [("rice", 1000%float)] 2000 0 in
  fst run = Finished /\ map (map fst) (snd run) = [["rice"]; ["rice"]].
Proof. vm_compute. split; reflexivity. Qed.

(** Rice and chicken, 4265 kcal at 2000 kcal a day: three days, both
    items in each. *)
Example scenario_two_items :
  let run := plan_days (F:=float) ascii_lower demo_db 10
               [("rice", 1000%float); ("chicken", 500%float)] 2000 0 in
  fst run = Finished
  /\ map (map fst) (snd run)
     = [["rice"; "chicken"]; ["rice"; "chicken"]; ["rice"; "chicken"]].
Proof. vm_compute. split; reflexivity. Qed.

(** The cap needs the distinct names: a name listed twice is charged
    twice the grams assigned to it, here 4000 kcal on the first day. *)
Example duplicate_names_exceed_cap :
  (4000 <= bucket_kcal ascii_lower demo_db
             (hd [] (snd (plan_days (F:=Q) ascii_lower demo_db 10
                            [("rice", 1000%Q); ("rice", 1000%Q)] 2000 0))))%Q.
Proof. vm_compute. discriminate. Qed.

(** ** The basket of a user *)

Lemma NoDup_snoc {A} (l : list A) (a : A) :
  NoDup l -> ~ In a l -> NoDup (l ++ [a]).
Proof.
  induction l as [|x l IH]; simpl; intros Hnd Hnot.
  - constructor; [tauto | constructor].
  - inversion Hnd as [|? ? Hx Hnd']; subst. constructor.
    + rewrite in_app_iff. simpl. intros [H|[H|[]]]; [contradiction|].
      apply Hnot. left. symmetry. exact H.
    + apply IH; [exact Hnd' | tauto].
Qed.

Section BasketFacts.

Context {F : Type} {N : Num F}.
Variable lower : string -> string.
Hypothesis lower_idempotent : forall s, lower (lower s) = lower s.

Implicit Types (products : list (entry (F:=F))) (weight : F).

Lemma merge_product_none products product_name weight :
  merge_product lower products product_name weight = None
  <-> ~ In (lower product_name) (folded_names lower products).
Proof.
  induction products as [|[name w0] rest IH]; simpl; [tauto|].
  destruct (String.eqb_spec (lower name) (lower product_name)) as [Heq|Hne].
  - split; [discriminate | intros H; exfalso; apply H; left; exact Heq].
  - destruct (merge_product lower rest product_name weight) as [rest'|].
    + split; [discriminate|]. intros H. exfalso.
      assert (Hrest : ~ In (lower product_name) (folded_names lower rest)) by tauto.
      pose proof (proj2 IH Hrest). discriminate.
    + split; [|reflexivity]. intros _ [H|H]; [contradiction|].
      apply (proj1 IH eq_refl H).
Qed.

Lemma merge_product_names products product_name weight merged :
  merge_product lower products product_name weight = Some merged ->
  map fst merged = map fst products.
Proof.
  revert merged. induction products as [|[name w0] rest IH]; simpl; [discriminate|].
  intros merged.
  destruct (lower name =? lower product_name).
  - intros [= <-]. reflexivity.
  - destruct (merge_product lower rest product_name weight) as [rest'|];
      [|discriminate].
    intros [= <-]. simpl. rewrite (IH rest' eq_refl). reflexivity.
Qed.

Lemma folded_names_fst products :
  folded_names lower products = map lower (map fst products).
Proof. unfold folded_names. rewrite map_map. reflexivity. Qed.

Lemma basket_add_folded products product_name weight :
  folded_names lower (basket_add lower products product_name weight)
  = if in_dec string_dec (lower product_name) (folded_names lower products)
    then folded_names lower products
    else folded_names lower products ++ [lower product_name].
Proof.
  unfold basket_add.
  destruct (merge_product lower products product_name weight) as [merged|] eqn:E.
  - destruct (in_dec _ _ _) as [Hin|Hnot].
    + rewrite !folded_names_fst, (merge_product_names _ _ _ _ E). reflexivity.
    + pose proof (proj2 (merge_product_none products product_name weight) Hnot).
      congruence.
  - destruct (in_dec _ _ _) as [Hin|Hnot].
    + pose proof (proj1 (merge_product_none products product_name weight) E).
      contradiction.
    + unfold folded_names. rewrite map_app. simpl.
      rewrite lower_idempotent. reflexivity.
Qed.

Lemma basket_add_distinct products product_name weight :
  NoDup (folded_names lower products) ->
  NoDup (folded_names lower (basket_add lower products product_name weight)).
Proof.
  intros Hnd. rewrite basket_add_folded.
  destruct (in_dec _ _ _) as [Hin|Hnot]; [exact Hnd|].
  apply NoDup_snoc; assumption.
Qed.

End BasketFacts.

Lemma ascii_lower_idempotent (s : string) :
  ascii_lower (ascii_lower s) = ascii_lower s.
Proof.
  induction s as [|c s IH]; [reflexivity|].
  cbn [ascii_lower]. rewrite IH. f_equal.
  destruct c as [[] [] [] [] [] [] [] []]; reflexivity.
Qed.

Section BasketLookup.

Context {F : Type} {N : Num F}.
Variable lower : string -> string.
Hypothesis lower_idempotent : forall s, lower (lower s) = lower s.

Implicit Types (products : list (entry (F:=F))) (weight : F).

Lemma basket_find_ext products a b :
  lower a = lower b -> basket_find lower products a = basket_find lower products b.
Proof.
  intros H. induction products as [|[name w0] rest IH]; simpl; [reflexivity|].
  rewrite H, IH. reflexivity.
Qed.

Lemma basket_find_none products product_name :
  basket_find lower products product_name = None
  <-> ~ In (lower product_name) (folded_names lower products).
Proof.
  induction products as [|[name w0] rest IH]; simpl; [tauto|].
  destruct (String.eqb_spec (lower name) (lower product_name)) as [Heq|Hne].
  - split; [discriminate | intros H; exfalso; apply H; left; exact Heq].
  - rewrite IH. tauto.
Qed.

Lemma basket_find_app products products' product_name :
  basket_find lower (products ++ products') product_name
  = match basket_find lower products product_name with
    | Some w => Some w
    | None => basket_find lower products' product_name
    end.
Proof.
  induction products as [|[name w0] rest IH]; simpl; [reflexivity|].
  destruct (lower name =? lower product_name); [reflexivity | exact IH].
Qed.

Lemma basket_find_merge products product_name weight merged other :
  merge_product lower products product_name weight = Some merged ->
  basket_find lower merged other
  = if lower other =? lower product_name
    then option_map (fun w0 => add w0 weight)
                    (basket_find lower products product_name)
    else basket_find lower products other.
Proof.
  revert merged. induction products as [|[name w0] rest IH]; simpl; [discriminate|].
  intros merged.
  destruct (String.eqb_spec (lower name) (lower product_name)) as [Heq|Hne].
  - intros [= <-]. simpl. rewrite Heq.
    rewrite (String.eqb_sym (lower product_name) (lower other)).
    destruct (lower other =? lower product_name); reflexivity.
  - destruct (merge_product lower rest product_name weight) as [rest'|];
      [|discriminate].
    intros [= <-]. simpl.
    destruct (String.eqb_spec (lower name) (lower other)) as [Heq'|Hne'].
    + destruct (String.eqb_spec (lower other) (lower product_name)) as [Ho|Ho];
        [congruence | reflexivity].
    + apply IH. reflexivity.
Qed.

Lemma basket_find_add products product_name weight other :
  basket_find lower (basket_add lower products product_name weight) other
  = if lower other =? lower product_name
    then Some match basket_find lower products product_name with
              | Some w0 => add w0 weight
              | None => weight
              end
    else basket_find lower products other.
Proof.
  unfold basket_add.
  destruct (merge_product lower products product_name weight) as [merged|] eqn:E.
  - rewrite (basket_find_merge _ _ _ _ other E).
    destruct (lower other =? lower product_name); [|reflexivity].
    destruct (basket_find lower products product_name) as [w0|] eqn:Ef;
      [reflexivity|].
    pose proof (proj2 (merge_product_none lower products product_name weight)
                  (proj1 (basket_find_none _ _) Ef)) as Hnone.
    congruence.
  - pose proof (proj1 (merge_product_none lower products product_name weight) E)
      as Habsent.
    pose proof (proj2 (basket_find_none products product_name) Habsent) as Hnone.
    rewrite basket_find_app. simpl. rewrite lower_idempotent.
    rewrite (String.eqb_sym (lower product_name) (lower other)).
    destruct (String.eqb_spec (lower other) (lower product_name)) as [Ho|Ho].
    + rewrite (basket_find_ext products other product_name Ho), Hnone. reflexivity.
    + destruct (basket_find lower products other); reflexivity.
Qed.

Lemma basket_remove_snoc products name weight product_name :
  ~ In (lower product_name) (folded_names lower products) ->
  lower name = lower product_name ->
  basket_remove lower (products ++ [(name, weight)]) product_name = products.
Proof.
  intros Habsent Hname.
  induction products as [|[n0 w0] rest IH]; simpl.
  - rewrite Hname, String.eqb_refl. reflexivity.
  - simpl in Habsent.
    destruct (String.eqb_spec (lower n0) (lower product_name)) as [Heq|Hne];
      [tauto|].
    rewrite IH by tauto. reflexivity.
Qed.

Lemma basket_remove_add products product_name weight :
  basket_find lower products product_name = None ->
  basket_remove lower (basket_add lower products product_name weight) product_name
  = products.
Proof.
  intros Hnone. pose proof (proj1 (basket_find_none _ _) Hnone) as Habsent.
  unfold basket_add.
  rewrite (proj2 (merge_product_none lower products product_name weight) Habsent).
  apply basket_remove_snoc; [exact Habsent | apply lower_idempotent].
Qed.

Lemma basket_find_remove_other products product_name other :
  lower other <> lower product_name ->
  basket_find lower (basket_remove lower products product_name) other
  = basket_find lower products other.
Proof.
  intros Hne. induction products as [|[n0 w0] rest IH]; simpl; [reflexivity|].
  destruct (String.eqb_spec (lower n0) (lower product_name)) as [Heq|Hne0].
  - destruct (String.eqb_spec (lower n0) (lower other)); [congruence | reflexivity].
  - simpl. rewrite IH. reflexivity.
Qed.

Lemma basket_remove_absent products product_name :
  NoDup (folded_names lower products) ->
  basket_find lower (basket_remove lower products product_name) product_name = None.
Proof.
  induction products as [|[n0 w0] rest IH]; simpl; intros Hnd; [reflexivity|].
  inversion Hnd as [|? ? Hnotin Hnd']; subst.
  destruct (String.eqb_spec (lower n0) (lower product_name)) as [Heq|Hne0].
  - apply basket_find_none. rewrite <- Heq. exact Hnotin.
  - simpl. destruct (String.eqb_spec (lower n0) (lower product_name)); [contradiction|].
    apply IH, Hnd'.
Qed.

Lemma basket_remove_folded_incl products product_name n :
  In n (folded_names lower (basket_remove lower products product_name)) ->
  In n (folded_names lower products).
Proof.
  induction products as [|[n0 w0] rest IH]; simpl; [tauto|].
  destruct (lower n0 =? lower product_name); simpl; tauto.
Qed.

Lemma basket_remove_distinct products product_name :
  NoDup (folded_names lower products) ->
  NoDup (folded_names lower (basket_remove lower products product_name)).
Proof.
  induction products as [|[n0 w0] rest IH]; simpl; intros Hnd; [constructor|].
  inversion Hnd as [|? ? Hnotin Hnd']; subst.
  destruct (lower n0 =? lower product_name); [exact Hnd'|].
  simpl. constructor; [|apply IH, Hnd'].
  intros Hin. apply Hnotin. eapply basket_remove_folded_incl, Hin.
Qed.

End BasketLookup.

Section CacheFacts.

Context {F : Type} {N : Num F}.
Variable lower : string -> string.

Implicit Types (user_products : cache (F:=F)) (weight : F).

Lemma add_product_own user_products user_id product_name weight :
  add_product_to_user lower user_products user_id product_name weight user_id
  = Some (basket_add lower (cache_get user_products user_id) product_name weight).
Proof.
  unfold add_product_to_user, cache_get, cache_set.
  destruct (user_products user_id) eqn:E; rewrite Z.eqb_refl; [|reflexivity].
  rewrite E. reflexivity.
Qed.

Lemma add_product_other user_products user_id product_name weight other :
  other <> user_id ->
  add_product_to_user lower user_products user_id product_name weight other
  = user_products other.
Proof.
  intros Hne. unfold add_product_to_user, cache_set.
  destruct (Z.eqb_spec other user_id); [contradiction|].
  destruct (user_products user_id); [reflexivity|].
  destruct (Z.eqb_spec other user_id); [contradiction | reflexivity].
Qed.

Lemma remove_product_own user_products user_id product_name :
  cache_get (remove_product_from_user lower user_products user_id product_name)
            user_id
  = basket_remove lower (cache_get user_products user_id) product_name.
Proof.
  unfold remove_product_from_user, cache_get.
  destruct (user_products user_id) eqn:E.
  - unfold cache_set. rewrite Z.eqb_refl. reflexivity.
  - rewrite E. reflexivity.
Qed.

Lemma remove_product_other user_products user_id product_name other :
  other <> user_id ->
  remove_product_from_user lower user_products user_id product_name other
  = user_products other.
Proof.
  intros Hne. unfold remove_product_from_user, cache_set.
  destruct (user_products user_id); [|reflexivity].
  destruct (Z.eqb_spec other user_id); [contradiction | reflexivity].
Qed.

End CacheFacts.

(** X1.  Adding a product keeps the names of a basket distinct, also up to
    case, and touches the list of no other user. *)
Theorem add_product_keeps_names_distinct
    (F : Type) (N : Num F) (lower : string -> string)
    (user_products : cache (F:=F)) (user_id : Z)
    (product_name : string) (weight : F) :
  (forall s, lower (lower s) = lower s) ->
  NoDup (folded_names lower (cache_get user_products user_id)) ->
  let after := add_product_to_user lower user_products user_id product_name weight in
  NoDup (folded_names lower (cache_get after user_id))
  /\ NoDup (map fst (cache_get after user_id))
  /\ forall other, other <> user_id -> after other = user_products other.
Proof.
  intros Hidem Hnd after.
  assert (Hown : cache_get after user_id
                 = basket_add lower (cache_get user_products user_id)
                              product_name weight).
  { unfold cache_get at 1. unfold after. rewrite add_product_own. reflexivity. }
  assert (Hfolded : NoDup (folded_names lower (cache_get after user_id))).
  { rewrite Hown. apply basket_add_distinct; assumption. }
  split; [exact Hfolded|]. split.
  - rewrite folded_names_fst in Hfolded. exact (NoDup_map_inv _ _ Hfolded).
  - intros other Hother. apply add_product_other, Hother.
Qed.

Lemma add_product_keeps_names_distinct_witness :
  NoDup (map fst
           (cache_get
              (add_product_to_user (F:=Q) ascii_lower
                 (fun _ => Some [("rice", 200%Q); ("egg", 60%Q)])
                 7%Z "Rice" 300%Q)
              7%Z)).
Proof.
  apply (add_product_keeps_names_distinct Q Q_num ascii_lower
           (fun _ => Some [("rice", 200%Q); ("egg", 60%Q)]) 7%Z "Rice" 300%Q
           ascii_lower_idempotent).
  repeat constructor; simpl; intuition discriminate.
Defined.

(** X2.  After a product is added, the basket holds under its name the mass it
    held before plus the added mass, or the added mass when the name is
    new; under every other name it holds what it held. *)
Theorem add_product_records_mass
    (F : Type) (N : Num F) (lower : string -> string)
    (user_products : cache (F:=F)) (user_id : Z)
    (product_name other : string) (weight : F) :
  (forall s, lower (lower s) = lower s) ->
  basket_find lower
    (cache_get
       (add_product_to_user lower user_products user_id product_name weight)
       user_id)
    other
  = if lower other =? lower product_name
    then Some match basket_find lower (cache_get user_products user_id)
                                product_name with
              | Some w0 => add w0 weight
              | None => weight
              end
    else basket_find lower (cache_get user_products user_id) other.
Proof.
  intros Hidem. unfold cache_get at 1. rewrite add_product_own.
  apply basket_find_add. exact Hidem.
Qed.

Lemma add_product_records_mass_witness :
  basket_find ascii_lower
    (cache_get
       (add_product_to_user (F:=float) ascii_lower
          (fun _ => Some [("rice", 200%float); ("egg", 60%float)])
          7%Z "RICE" 300%float)
       7%Z)
    "Rice"
  = Some 500%float.
Proof.
  apply (add_product_records_mass float float_num ascii_lower
           (fun _ => Some [("rice", 200%float); ("egg", 60%float)])
           7%Z "RICE" "Rice" 300%float ascii_lower_idempotent).
Defined.

(** X3.  Removing a product that was just added under a new name gives the
    user the list there was before, and leaves the other users alone. *)
Theorem remove_undoes_add
    (F : Type) (N : Num F) (lower : string -> string)
    (user_products : cache (F:=F)) (user_id : Z)
    (product_name : string) (weight : F) :
  (forall s, lower (lower s) = lower s) ->
  basket_find lower (cache_get user_products user_id) product_name = None ->
  let after :=
    remove_product_from_user lower
      (add_product_to_user lower user_products user_id product_name weight)
      user_id product_name in
  after user_id = Some (cache_get user_products user_id)
  /\ forall other, other <> user_id -> after other = user_products other.
Proof.
  intros Hidem Hnone after. split.
  - unfold after, remove_product_from_user. rewrite add_product_own.
    unfold cache_set. rewrite Z.eqb_refl. f_equal.
    apply basket_remove_add; assumption.
  - intros other Hother. unfold after.
    rewrite remove_product_other by exact Hother.
    apply add_product_other, Hother.
Qed.

Lemma remove_undoes_add_witness :
  remove_product_from_user (F:=float) ascii_lower
    (add_product_to_user ascii_lower
       (fun _ => Some [("rice", 200%float)]) 7%Z "Egg" 60%float)
    7%Z "Egg" 7%Z
  = Some [("rice", 200%float)].
Proof.
  exact (proj1 (remove_undoes_add float float_num ascii_lower
                  (fun _ => Some [("rice", 200%float)]) 7%Z "Egg" 60%float
                  ascii_lower_idempotent eq_refl)).
Defined.

(** X4.  After a product is removed from a basket of distinct names, the
    basket holds nothing under that name, holds under every other name
    what it held, and its names are still distinct. *)
Theorem remove_product_forgets_name
    (F : Type) (N : Num F) (lower : string -> string)
    (user_products : cache (F:=F)) (user_id : Z) (product_name : string) :
  NoDup (folded_names lower (cache_get user_products user_id)) ->
  let after :=
    cache_get (remove_product_from_user lower user_products user_id product_name)
              user_id in
  basket_find lower after product_name = None
  /\ (forall other, lower other <> lower product_name ->
        basket_find lower after other
        = basket_find lower (cache_get user_products user_id) other)
  /\ NoDup (folded_names lower after).
Proof.
  intros Hnd after. unfold after. rewrite remove_product_own.
  split; [|split].
  - apply basket_remove_absent, Hnd.
  - intros other Hother. apply basket_find_remove_other, Hother.
  - apply basket_remove_distinct, Hnd.
Qed.

Lemma remove_product_forgets_name_witness :
  basket_find ascii_lower
    (cache_get
       (remove_product_from_user (F:=float) ascii_lower
          (fun _ => Some [("rice", 200%float); ("egg", 60%float)]) 7%Z "RICE")
       7%Z)
    "RICE"
  = None.
Proof.
  apply (remove_product_forgets_name float float_num ascii_lower
           (fun _ => Some [("rice", 200%float); ("egg", 60%float)]) 7%Z "RICE").
  repeat constructor; simpl; intuition discriminate.
Defined.

Section BasketCalories.

Context {F : Type} {N : Num F}.
Variable lower : string -> string.
Variable PRODUCTS_DB : list (string * Product (F:=F)).

Lemma density_folded a b :
  lower a = lower b -> density lower PRODUCTS_DB a = density lower PRODUCTS_DB b.
Proof.
  intros H. unfold density, find_similar_product. rewrite H. reflexivity.
Qed.

Lemma calculate_total_calories_from (products : list (entry (F:=F))) : forall total,
  fold_left
    (fun acc (p : entry) =>
       total_calories <- acc ;;
       match find_similar_product lower PRODUCTS_DB (fst p) with
       | Some (String _ _ as db_product_name) =>
         product <- db_lookup PRODUCTS_DB db_product_name ;;
         Ok (add total_calories (quot (mul (calories product) (snd p)) hundred))
       | _ => Ok (add total_calories (quot (mul hundred (snd p)) hundred))
       end)
    products (Ok total)
  = Ok (fold_left
          (fun total p =>
             add total (quot (mul (density lower PRODUCTS_DB (fst p)) (snd p)) hundred))
          products total).
Proof.
  induction products as [|[n w] products IH]; intros total; [reflexivity|].
  cbn [fold_left bind fst snd]. unfold density at 2.
  destruct (find_similar_product lower PRODUCTS_DB n) as [[|c key]|] eqn:E;
    try apply IH.
  destruct (find_similar_in_db lower PRODUCTS_DB _ _ E) as [p Hp].
  unfold db_lookup. rewrite Hp. cbn [bind]. apply IH.
Qed.

End BasketCalories.

(** X5.  The total of a basket is always computed: the catalog lookup behind
    a resolved name never misses, and every entry adds its mass times
    the density of its name, per 100 g. *)
Theorem total_calories_never_fails
    (F : Type) (N : Num F) (lower : string -> string)
    (PRODUCTS_DB : list (string * Product (F:=F)))
    (products : list (entry (F:=F))) :
  calculate_total_calories lower PRODUCTS_DB products
  = Ok (calories_sum lower PRODUCTS_DB products).
Proof.
  unfold calculate_total_calories, calories_sum.
  apply calculate_total_calories_from.
Qed.

Section BasketCaloriesExact.

Local Open Scope Q_scope.

Variable lower : string -> string.
Variable PRODUCTS_DB : list (string * Product (F:=Q)).
Hypothesis lower_idempotent : forall s, lower (lower s) = lower s.

Lemma calories_sum_py_sum (products : list (entry (F:=Q))) :
  calories_sum lower PRODUCTS_DB products = py_sum (map (entry_kcal lower PRODUCTS_DB) products).
Proof.
  unfold calories_sum, py_sum. generalize (zero (F:=Q)).
  induction products as [|p products IH]; intros z; [reflexivity|].
  simpl. rewrite IH. reflexivity.
Qed.

Lemma merge_product_calories (products : list (entry (F:=Q))) product_name weight :
  forall merged,
  merge_product lower products product_name weight = Some merged ->
  py_sum (map (entry_kcal lower PRODUCTS_DB) merged)
  == py_sum (map (entry_kcal lower PRODUCTS_DB) products) + entry_kcal lower PRODUCTS_DB (product_name, weight).
Proof.
  induction products as [|[name w0] rest IH]; simpl; [discriminate|].
  intros merged.
  destruct (String.eqb_spec (lower name) (lower product_name)) as [Heq|Hne].
  - intros [= <-]. simpl. rewrite !py_sum_cons. unfold entry_kcal. cbn [fst snd].
    rewrite (density_folded lower PRODUCTS_DB name product_name Heq).
    cbn [add Q_num]. field.
  - destruct (merge_product lower rest product_name weight) as [rest'|];
      [|discriminate].
    intros [= <-]. simpl. rewrite !py_sum_cons, (IH rest' eq_refl). ring.
Qed.

Lemma basket_add_calories (products : list (entry (F:=Q))) product_name weight :
  calories_sum lower PRODUCTS_DB (basket_add lower products product_name weight)
  == calories_sum lower PRODUCTS_DB products
     + density lower PRODUCTS_DB product_name * weight / 100.
Proof.
  rewrite !calories_sum_py_sum. unfold basket_add.
  destruct (merge_product lower products product_name weight) as [merged|] eqn:E.
  - rewrite (merge_product_calories _ _ _ _ E). reflexivity.
  - rewrite map_app, py_sum_app. simpl. rewrite py_sum_cons, py_sum_nil.
    unfold entry_kcal at 2. cbn [fst snd].
    rewrite (density_folded lower PRODUCTS_DB (lower product_name) product_name
               (lower_idempotent product_name)).
    ring.
Qed.

End BasketCaloriesExact.



Section Loading.

Context {F : Type} {N : Num F}.
Variable lower : string -> string.

Local Notation "'step'" :=
  (fun products (item : Product (F:=F)) =>
     dict_set products (lower (p_name item)) item).

Lemma load_keeps_key (data : list (Product (F:=F))) : forall d k q,
  dict_get d k = Some q ->
  exists p, dict_get (fold_left step data d) k = Some p.
Proof.
  induction data as [|it rest IH]; intros d k q Hq; simpl; [eauto|].
  destruct (String.eqb_spec (lower (p_name it)) k) as [Heq|Hne].
  - apply (IH _ k it). rewrite dict_get_set, Heq, String.eqb_refl. reflexivity.
  - apply (IH _ k q). rewrite dict_get_set.
    destruct (String.eqb_spec (lower (p_name it)) k); [contradiction | exact Hq].
Qed.

Lemma load_defines_key (data : list (Product (F:=F))) : forall d item,
  In item data ->
  exists p, dict_get (fold_left step data d) (lower (p_name item)) = Some p.
Proof.
  induction data as [|it rest IH]; intros d item Hin; simpl; [destruct Hin|].
  destruct Hin as [->|Hin]; [|apply IH, Hin].
  apply (load_keeps_key rest _ _ item).
  rewrite dict_get_set, String.eqb_refl. reflexivity.
Qed.

Lemma load_get_origin (data : list (Product (F:=F))) : forall d k p,
  dict_get (fold_left step data d) k = Some p ->
  (In p data /\ lower (p_name p) = k) \/ dict_get d k = Some p.
Proof.
  induction data as [|it rest IH]; intros d k p Hp; simpl in *; [auto|].
  destruct (IH _ _ _ Hp) as [[Hin Hk]|Hd]; [auto|].
  rewrite dict_get_set in Hd.
  destruct (String.eqb_spec (lower (p_name it)) k) as [Heq|Hne]; [|auto].
  injection Hd as <-. auto.
Qed.

Lemma NoDup_map_unique {A B} (f : A -> B) (l : list A) a b :
  NoDup (map f l) -> In a l -> In b l -> f a = f b -> a = b.
Proof.
  induction l as [|x l IH]; simpl; intros Hnd Ha Hb Hf; [destruct Ha|].
  inversion Hnd as [|? ? Hnotin Hnd']; subst.
  destruct Ha as [->|Ha], Hb as [->|Hb]; auto.
  - exfalso. apply Hnotin. rewrite Hf. apply in_map, Hb.
  - exfalso. apply Hnotin. rewrite <- Hf. apply in_map, Ha.
Qed.

End Loading.

(** X7.  Every product read from the file is found by its own name, by exact
    match on the case-folded name.  The entry found there is a product
    of the file with the same folded name, the product itself when no
    two names of the file agree up to case, and the planner takes its
    calories, unless the name folds to the empty string. *)
Theorem loaded_product_resolves
    (F : Type) (N : Num F) (lower : string -> string)
    (data : list (Product (F:=F))) (item : Product (F:=F)) :
  In item data ->
  lower (p_name item) <> "" ->
  exists p,
    In p data
    /\ lower (p_name p) = lower (p_name item)
    /\ find_similar_product lower (load_products lower data) (p_name item)
       = Some (lower (p_name item))
    /\ calories_per_gram lower (load_products lower data) (p_name item)
       = Ok (quot (calories p) hundred)
    /\ (NoDup (map (fun it => lower (p_name it)) data) -> p = item).
Proof.
  intros Hin Hname.
  destruct (load_defines_key lower data [] item Hin) as [p Hp].
  fold (load_products lower data) in Hp.
  assert (Horigin : In p data /\ lower (p_name p) = lower (p_name item)).
  { destruct (load_get_origin lower data [] _ _ Hp) as [H|H];
      [exact H | discriminate]. }
  destruct Horigin as [Hpin Hfold].
  pose proof (find_similar_exact lower (load_products lower data) _ _ Hp) as Hfound.
  exists p. repeat split; try assumption.
  - unfold calories_per_gram. rewrite Hfound.
    destruct (lower (p_name item)) as [|c key]; [contradiction|].
    unfold db_lookup. rewrite Hp. reflexivity.
  - intros Hnd.
    exact (NoDup_map_unique (fun it => lower (p_name it)) data p item
             Hnd Hpin Hin Hfold).
Qed.

Lemma loaded_product_resolves_witness :
  exists p,
    In p [mkProduct "Rice" 344%Q 7%Q 1%Q 78%Q; mkProduct "Egg" 157%Q 13%Q 11%Q 1%Q]
    /\ ascii_lower (p_name p) = "rice"
    /\ find_similar_product ascii_lower
         (load_products ascii_lower
            [mkProduct "Rice" 344%Q 7%Q 1%Q 78%Q; mkProduct "Egg" 157%Q 13%Q 11%Q 1%Q])
         "Rice"
       = Some "rice"
    /\ calories_per_gram ascii_lower
         (load_products ascii_lower
            [mkProduct "Rice" 344%Q 7%Q 1%Q 78%Q; mkProduct "Egg" 157%Q 13%Q 11%Q 1%Q])
         "Rice"
       = Ok (quot (calories p) hundred)
    /\ (NoDup ["rice"; "egg"] -> p = mkProduct "Rice" 344%Q 7%Q 1%Q 78%Q).
Proof.
  apply (loaded_product_resolves Q Q_num ascii_lower
           [mkProduct "Rice" 344%Q 7%Q 1%Q 78%Q; mkProduct "Egg" 157%Q 13%Q 11%Q 1%Q]
           (mkProduct "Rice" 344%Q 7%Q 1%Q 78%Q)).
  - left. reflexivity.
  - discriminate.
Defined.

Section Truncation.

Local Open Scope Q_scope.

Lemma to_int_floor (x : Q) : 0 <= x -> to_int x = Got (Qfloor x).
Proof.
  intros Hx. destruct x as [n d]. cbn [to_int Q_int Qnum Qden Qfloor].
  rewrite Z.quot_div_nonneg; [reflexivity | | reflexivity].
  unfold Qle in Hx. simpl in Hx. lia.
Qed.

Lemma to_int_total (x : Q) : exists n, to_int x = Got n.
Proof. eexists. reflexivity. Qed.

End Truncation.



Section Norms.

Local Open Scope Q_scope.

Lemma registered_ranges age weight height :
  registered age weight height ->
  (10 <= age <= 100)%Z /\ 30 <= weight <= 300 /\ 100 <= height <= 250.
Proof.
  unfold registered, age_accepted, weight_accepted, height_accepted.
  intros (Ha & Hw & Hh).
  apply negb_true_iff, orb_false_iff in Ha, Hw, Hh.
  destruct Ha as [Ha1 Ha2], Hw as [Hw1 Hw2], Hh as [Hh1 Hh2].
  destruct (ltbP weight (of_Z 30)); [discriminate|].
  destruct (ltbP (of_Z 300) weight); [discriminate|].
  destruct (ltbP height (of_Z 100)); [discriminate|].
  destruct (ltbP (of_Z 250) height); [discriminate|].
  cbn [of_Z Q_num] in *.
  change (inject_Z 30) with 30 in *. change (inject_Z 300) with 300 in *.
  change (inject_Z 100) with 100 in *. change (inject_Z 250) with 250 in *.
  repeat split; try lia; lra.
Qed.

Lemma registered_bmr gender age weight height :
  registered age weight height ->
  264 <= calculate_bmr gender weight height age <= 9035 # 2.
Proof.
  intros H. destruct (registered_ranges _ _ _ H) as ((Ha1 & Ha2) & Hw & Hh).
  assert (Hage : 50 <= inject_Z (5 * age) <= 500).
  { change 50 with (inject_Z 50). change 500 with (inject_Z 500).
    rewrite <- !Zle_Qle. lia. }
  destruct gender; cbn [calculate_bmr lit quot mul add sub of_Z Q_num];
    change (inject_Z 10) with 10; change (inject_Z 5) with 5;
    change (inject_Z 161) with 161;
    (setoid_replace (inject_Z 625 / inject_Z 100) with (25 # 4)
       by (cbv; reflexivity));
    set (a := inject_Z (5 * age)) in *; clearbody a; lra.
Qed.

Lemma daily_calories_floor bmr activity goal :
  0 <= bmr ->
  exists tdee_share,
    calculate_daily_calories bmr activity goal = Got (Qfloor tdee_share)
    /\ tdee_share
       == bmr * activity_value activity
          * match goal with
            | WEIGHT_LOSS => 8 # 10
            | BALANCE => 9 # 10
            | WEIGHT_GAIN => 11 # 10
            end.
Proof.
  intros Hb.
  assert (Ha : 1 <= activity_value (F:=Q) activity <= 2).
  { destruct activity; cbn; split; unfold Qle; simpl; lia. }
  destruct goal; cbn [calculate_daily_calories];
    (eexists; split; [apply to_int_floor | reflexivity]);
    cbn [mul lit quot of_Z Q_num];
    set (a := activity_value activity) in *; clearbody a;
    [ (setoid_replace (inject_Z 8 / inject_Z 10) with (8 # 10)
       by (cbv; reflexivity))
    | (setoid_replace (inject_Z 9 / inject_Z 10) with (9 # 10)
       by (cbv; reflexivity))
    | (setoid_replace (inject_Z 11 / inject_Z 10) with (11 # 10)
       by (cbv; reflexivity)) ];
    nra.
Qed.

End Norms.

Section NormBounds.

Local Open Scope Q_scope.

Lemma activity_value_range (activity : Activity) :
  12 # 10 <= activity_value (F:=Q) activity <= 19 # 10.
Proof. destruct activity; split; cbv; discriminate. Qed.

Lemma registered_tdee_share gender age weight height activity goal :
  registered age weight height ->
  exists tdee_share,
    calculate_daily_calories (calculate_bmr gender weight height age) activity goal
    = Got (Qfloor tdee_share)
    /\ 25344 # 100 <= tdee_share <= 9441575 # 1000.
Proof.
  intros H. pose proof (registered_bmr gender age weight height H) as Hb.
  pose proof (activity_value_range activity) as Ha.
  set (bmr := calculate_bmr gender weight height age) in *.
  destruct (daily_calories_floor bmr activity goal) as (x & Hx & Hv); [lra|].
  exists x. split; [exact Hx|].
  set (a := activity_value activity) in *. clearbody a bmr.
  assert (Ht : (264 * (12 # 10) <= bmr * a <= (9035 # 2) * (19 # 10))) by nra.
  set (t := bmr * a) in *. clearbody t.
  destruct goal; lra.
Qed.

End NormBounds.



Section Slots.

Local Open Scope Q_scope.

(** What the slots of a plan hold of any quantity that is linear in the
    mass: four, or five, times the share of one meal. *)
Lemma slots_linear (g : string -> Q) (products : list (entry (F:=Q)))
    (meals_count : Z) :
  meals_count <> 0%Z ->
  exists plan,
    distribute_products products meals_count = Ok plan
    /\ py_sum (map (fun e => snd e * g (fst e)) (all_slots plan))
       == (if (meals_count =? 5)%Z then 5 else 4) / inject_Z meals_count
          * py_sum (map (fun e => snd e * g (fst e)) products).
Proof.
  intros Hmc.
  assert (Hm : ~ inject_Z meals_count == 0).
  { change 0 with (inject_Z 0). rewrite inject_Z_injective. exact Hmc. }
  unfold distribute_products.
  destruct products as [|p products].
  - eexists. split; [reflexivity|].
    cbn [all_slots breakfast snack lunch dinner second_snack app map].
    rewrite py_sum_nil. destruct (meals_count =? 5)%Z; field; exact Hm.
  - set (l := p :: products).
    destruct (Z.eqb_spec meals_count 0) as [->|_]; [contradiction|].
    eexists. split; [reflexivity|].
    set (pm := map (fun p : entry => (fst p, quot (snd p) (of_Z meals_count))) l).
    assert (Hpm : py_sum (map (fun e : string * Q => snd e * g (fst e)) pm)
                  == / inject_Z meals_count
                     * py_sum (map (fun e : string * Q => snd e * g (fst e)) l)).
    { unfold pm. rewrite map_map, <- py_sum_map_scale.
      apply py_sum_map_eq. intros a _. cbn [fst snd quot of_Z Q_num].
      field. exact Hm. }
    clearbody pm. unfold all_slots. cbn [breakfast snack lunch dinner second_snack].
    destruct (meals_count =? 5)%Z; rewrite !map_app, !py_sum_app;
      rewrite ?app_nil_r; cbn [map]; rewrite ?py_sum_nil, !Hpm; field; exact Hm.
Qed.

Lemma bucket_kcal_linear lower PRODUCTS_DB (day : list (entry (F:=Q))) :
  bucket_kcal lower PRODUCTS_DB day
  == py_sum (map (fun e => snd e * (density lower PRODUCTS_DB (fst e) / 100)) day).
Proof.
  unfold bucket_kcal. apply py_sum_map_eq. intros e _. field.
Qed.

Lemma day_total_linear (day : list (entry (F:=Q))) :
  py_sum (map snd day) == py_sum (map (fun e => snd e * 1) day).
Proof. apply py_sum_map_eq. intros e _. ring. Qed.

End Slots.

Section Shown.

Local Open Scope Q_scope.

Variable lower : string -> string.
Variable PRODUCTS_DB : list (string * Product (F:=Q)).

Lemma slots_keep_mass (products : list (entry (F:=Q))) (meals_count : Z) :
  (meals_count = 4 \/ meals_count = 5)%Z ->
  exists plan,
    distribute_products products meals_count = Ok plan
    /\ slots_total plan == day_total products
    /\ shown_kcal lower PRODUCTS_DB plan == bucket_kcal lower PRODUCTS_DB products.
Proof.
  intros Hmc.
  assert (Hne : meals_count <> 0%Z) by lia.
  destruct (slots_linear (fun _ => 1) products meals_count Hne) as (plan & Hplan & Hmass).
  destruct (slots_linear (fun n => density lower PRODUCTS_DB n / 100)
              products meals_count Hne) as (plan' & Hplan' & Hkcal).
  rewrite Hplan in Hplan'. injection Hplan' as <-.
  exists plan. split; [exact Hplan|].
  unfold slots_total, day_total, shown_kcal.
  rewrite !day_total_linear, !bucket_kcal_linear, Hmass, Hkcal.
  destruct Hmc as [-> | ->]; cbn [Z.eqb Pos.eqb]; split; field.
Qed.

Lemma plan_days_cap fuel (products : list (entry (F:=Q)))
    (daily_calories calorie_excess_cap : Z) :
  NoDup (map fst products) ->
  (0 < daily_calories + calorie_excess_cap)%Z ->
  Forall (fun day =>
            bucket_kcal lower PRODUCTS_DB day
            <= inject_Z (daily_calories + calorie_excess_cap) + (1 # 1000000))
         (snd (plan_days lower PRODUCTS_DB fuel products
                 daily_calories calorie_excess_cap)).
Proof.
  intros Hnd Hpos. unfold plan_days. rewrite initial_remaining_spec.
  assert (Hcap : 0 < inject_Z (daily_calories + calorie_excess_cap)).
  { change 0 with (inject_Z 0). rewrite <- Zlt_Qlt. exact Hpos. }
  exact (build_days_cap lower PRODUCTS_DB fuel _ Hcap _ []
           (pool_ok_initial lower PRODUCTS_DB products Hnd) (Forall_nil _)).
Qed.

Lemma multi_day_plan_shown fuel (products : list (entry (F:=Q)))
    (daily_calories meals_count : Z) :
  NoDup (map fst products) ->
  (0 < daily_calories)%Z ->
  (meals_count = 4 \/ meals_count = 5)%Z ->
  Forall (fun plan =>
            shown_kcal lower PRODUCTS_DB plan
            <= inject_Z daily_calories + (1 # 1000000))
         (snd (create_multi_day_plan lower PRODUCTS_DB fuel products
                 daily_calories meals_count 0)).
Proof.
  intros Hnd Hpos Hmc. unfold create_multi_day_plan.
  pose proof (plan_days_cap fuel products daily_calories 0 Hnd
                ltac:(lia)) as Hcap.
  rewrite Z.add_0_r in Hcap.
  destruct (plan_days lower PRODUCTS_DB fuel products daily_calories 0)
    as [[| |] days]; cbn [snd] in *; try constructor.
  destruct (mapM _ days) as [daily_plans|] eqn:E; cbn [snd]; [|constructor].
  apply Forall_forall. intros plan Hplan.
  destruct (mapM_in _ _ _ _ E Hplan) as (day & Hday & Hdist).
  destruct (slots_keep_mass day meals_count Hmc) as (plan' & Hplan' & _ & Hkcal).
  rewrite Hdist in Hplan'. injection Hplan' as <-.
  rewrite Hkcal. exact (proj1 (Forall_forall _ _) Hcap day Hday).
Qed.

End Shown.

Lemma mapM_total {A B} (f : A -> result B) (l : list A) :
  (forall a, In a l -> exists b, f a = Ok b) ->
  exists bs, mapM f l = Ok bs /\ List.length bs = List.length l.
Proof.
  induction l as [|a l IH]; intros H; simpl.
  - exists []. auto.
  - destruct (H a (or_introl eq_refl)) as [b Hb]. rewrite Hb.
    destruct IH as (bs & Hbs & Hlen); [intros; apply H; right; assumption|].
    rewrite Hbs. exists (b :: bs). simpl. auto.
Qed.

Lemma registered_norms gender age weight height activity goal
    daily_calories macros meals_count :
  registered age weight height ->
  daily_norms (F:=Q) gender age weight height activity goal
  = Got (daily_calories, macros, meals_count) ->
  (253 <= daily_calories <= 9441)%Z
  /\ (meals_count = 4 \/ meals_count = 5)%Z.
Proof.
  intros Hreg. unfold daily_norms.
  destruct (registered_tdee_share gender age weight height activity goal Hreg)
    as (x & Hx & Hlo & Hhi).
  rewrite Hx. intros [= <- _ <-]. split.
  - apply Qfloor_resp_le in Hlo, Hhi.
    change (Qfloor (25344 # 100)) with 253%Z in Hlo.
    change (Qfloor (9441575 # 1000)) with 9441%Z in Hhi.
    lia.
  - destruct goal; cbn; auto.
Qed.


Lemma shown_integer (s : Q) (daily_calories : Z) :
  (0 < daily_calories)%Z ->
  (s <= inject_Z daily_calories + (1 # 1000000))%Q ->
  exists n, to_int s = Got n /\ (n <= daily_calories)%Z.
Proof.
  intros Hpos Hs. exists (Qnum s ÷ QDen s)%Z. split; [reflexivity|].
  destruct (Qlt_le_dec s 0) as [Hneg|Hnn].
  - assert (Hnum : (Qnum s < 0)%Z).
    { unfold Qlt in Hneg. simpl in Hneg. lia. }
    pose proof (Z.quot_pos (- Qnum s) (QDen s) ltac:(lia) ltac:(lia)) as H.
    rewrite Z.quot_opp_l in H by lia. lia.
  - pose proof (to_int_floor s Hnn) as Hfloor. cbn [to_int Q_int] in Hfloor.
    injection Hfloor as ->.
    pose proof (Qfloor_le s) as Hfl.
    assert (Hlt : (inject_Z (Qfloor s) < inject_Z (daily_calories + 1))%Q).
    { rewrite inject_Z_plus. change (inject_Z 1) with 1%Q. lra. }
    rewrite <- Zlt_Qlt in Hlt. lia.
Qed.





Section Served.

Local Open Scope Q_scope.

Lemma grams_in_linear (n : string) (day : list (entry (F:=Q))) :
  grams_in n day
  == py_sum (map (fun e => snd e * (if (fst e =? n)%string then 1 else 0)) day).
Proof.
  unfold grams_in. induction day as [|e day IH]; [reflexivity|].
  cbn [filter map]. destruct (fst e =? n)%string; cbn [map];
    rewrite !py_sum_cons, ?IH; ring.
Qed.

Lemma slots_keep_grams (n : string) (day : list (entry (F:=Q))) (meals_count : Z)
    (plan : MealPlan (F:=Q)) :
  (meals_count = 4 \/ meals_count = 5)%Z ->
  distribute_products day meals_count = Ok plan ->
  grams_in n (all_slots plan) == grams_in n day.
Proof.
  intros Hmc Hplan.
  destruct (slots_linear (fun m => if (m =? n)%string then 1 else 0)
              day meals_count ltac:(lia)) as (plan' & Hplan' & H).
  rewrite Hplan in Hplan'. injection Hplan' as <-.
  rewrite !grams_in_linear, H.
  destruct Hmc as [-> | ->]; cbn [Z.eqb Pos.eqb]; field.
Qed.

Lemma mapM_Forall2 {A B} (f : A -> result B) (l : list A) : forall bs,
  mapM f l = Ok bs -> Forall2 (fun a b => f a = Ok b) l bs.
Proof.
  induction l as [|a l IH]; simpl; intros bs.
  - intros [= <-]. constructor.
  - destruct (f a) as [b|] eqn:Ea; [simpl|discriminate].
    destruct (mapM f l) as [bs0|]; [simpl|discriminate].
    intros [= <-]. constructor; [exact Ea | apply IH; reflexivity].
Qed.

Lemma served_total_days (n : string) (meals_count : Z)
    (days : list (list (entry (F:=Q)))) (daily_plans : list (MealPlan (F:=Q))) :
  (meals_count = 4 \/ meals_count = 5)%Z ->
  Forall2 (fun day plan => distribute_products day meals_count = Ok plan)
          days daily_plans ->
  served_total n daily_plans == assigned_total n days.
Proof.
  intros Hmc. unfold served_total, assigned_total.
  induction 1 as [|day plan days daily_plans Hplan _ IH]; [reflexivity|].
  cbn [map]. rewrite !py_sum_cons, IH, (slots_keep_grams n day meals_count plan Hmc Hplan).
  reflexivity.
Qed.

End Served.



Section PositiveBasket.

Local Open Scope Q_scope.

Variable lower : string -> string.

Lemma merge_product_positive (products : list (entry (F:=Q))) n w :
  0 < w -> Forall (fun p => 0 < snd p) products ->
  forall merged, merge_product lower products n w = Some merged ->
  Forall (fun p => 0 < snd p) merged.
Proof.
  intros Hw. induction 1 as [|[name w0] rest Hp Hrest IH]; simpl; [discriminate|].
  intros merged. destruct (lower name =? lower n)%string.
  - intros [= <-]. constructor; [|exact Hrest].
    cbn [snd add Q_num] in *. lra.
  - destruct (merge_product lower rest n w) as [rest'|]; [|discriminate].
    intros [= <-]. constructor; [exact Hp | apply IH; reflexivity].
Qed.

Lemma basket_add_positive (products : list (entry (F:=Q))) n w :
  0 < w -> Forall (fun p => 0 < snd p) products ->
  Forall (fun p => 0 < snd p) (basket_add lower products n w).
Proof.
  intros Hw Hp. unfold basket_add.
  destruct (merge_product lower products n w) as [merged|] eqn:E.
  - exact (merge_product_positive products n w Hw Hp merged E).
  - apply Forall_app. split; [exact Hp|]. constructor; [exact Hw | constructor].
Qed.

Lemma positive_filter (products : list (entry (F:=Q))) :
  Forall (fun p => 0 < snd p) products ->
  filter positive_mass products = products.
Proof.
  induction 1 as [|p rest Hp _ IH]; [reflexivity|].
  cbn [filter]. unfold positive_mass at 1.
  destruct (ltbP zero (snd p)) as [_|Hn]; [rewrite IH; reflexivity|].
  cbn [zero Q_num] in Hn. lra.
Qed.

End PositiveBasket.





(** ** Not-a-number in binary64 *)

Section NotANumber.

Local Open Scope float_scope.

Variable x : float.
Hypothesis x_nan : Prim2SF x = S754_nan.

Lemma nan_mul_l y : Prim2SF (x * y) = S754_nan.
Proof. rewrite FloatAxioms.mul_spec, x_nan. reflexivity. Qed.

Lemma nan_mul_r y : Prim2SF (y * x) = S754_nan.
Proof. rewrite FloatAxioms.mul_spec, x_nan. destruct (Prim2SF y); reflexivity. Qed.

Lemma nan_add_l y : Prim2SF (x + y) = S754_nan.
Proof. rewrite FloatAxioms.add_spec, x_nan. reflexivity. Qed.

Lemma nan_add_r y : Prim2SF (y + x) = S754_nan.
Proof. rewrite FloatAxioms.add_spec, x_nan. destruct (Prim2SF y); reflexivity. Qed.

Lemma nan_sub_l y : Prim2SF (x - y) = S754_nan.
Proof. rewrite FloatAxioms.sub_spec, x_nan. reflexivity. Qed.

Lemma nan_ltb_l y : (x <? y) = false.
Proof. rewrite FloatAxioms.ltb_spec, x_nan. reflexivity. Qed.

Lemma nan_ltb_r y : (y <? x) = false.
Proof.
  rewrite FloatAxioms.ltb_spec, x_nan. unfold SFltb, SFcompare.
  destruct (Prim2SF y); reflexivity.
Qed.

Lemma nan_leb_l y : (x <=? y) = false.
Proof. rewrite FloatAxioms.leb_spec, x_nan. reflexivity. Qed.

Lemma nan_to_int : to_int x = Failed ValueError.
Proof. cbn [to_int float_int]. unfold float_to_int. rewrite x_nan. reflexivity. Qed.

End NotANumber.

Lemma nan_bmr (gender : Gender) (age : Z) (weight height : float) :
  Prim2SF weight = S754_nan \/ Prim2SF height = S754_nan ->
  Prim2SF (calculate_bmr gender weight height age) = S754_nan.
Proof.
  intros H. unfold calculate_bmr. cbn [add sub mul float_num].
  assert (Hsum : Prim2SF (of_Z 10 * weight + lit 625 100 * height)%float
                 = S754_nan).
  { destruct H as [H|H].
    - apply nan_add_l, nan_mul_r, H.
    - apply nan_add_r, nan_mul_r, H. }
  destruct gender.
  - apply nan_add_l, nan_sub_l, Hsum.
  - apply nan_sub_l, nan_sub_l, Hsum.
Qed.

(** X17.  In binary64 the range checks of the dialogue let not-a-number
    through: every comparison with it is false, so it is accepted as a
    weight, as a height and as the weight of a product.  With it as the
    weight or the height of a profile, the norms are not computed: [int]
    raises ValueError, whatever the other answers. *)
Theorem nan_passes_the_range_checks
    (x other : float) (gender : Gender) (age : Z)
    (activity : Activity) (goal : Goal) :
  Prim2SF x = S754_nan ->
  weight_accepted x = true
  /\ height_accepted x = true
  /\ product_weight_accepted x = true
  /\ daily_norms gender age x other activity goal = Failed ValueError
  /\ daily_norms gender age other x activity goal = Failed ValueError.
Proof.
  intros Hx.
  assert (Hnorms : forall weight height,
            Prim2SF weight = S754_nan \/ Prim2SF height = S754_nan ->
            daily_norms gender age weight height activity goal
            = Failed ValueError).
  { intros weight height H. unfold daily_norms, calculate_daily_calories.
    pose proof (nan_bmr gender age weight height H) as Hb.
    destruct goal; cbn [mul float_num];
      rewrite (nan_to_int _ (nan_mul_l _ (nan_mul_l _ Hb _) _)); reflexivity. }
  unfold weight_accepted, height_accepted, product_weight_accepted.
  cbn [ltb leb float_num].
  rewrite !(nan_ltb_l x Hx), !(nan_ltb_r x Hx), (nan_leb_l x Hx).
  repeat split; apply Hnorms; auto.
Qed.

Lemma nan_passes_the_range_checks_witness :
  weight_accepted nan = true
  /\ height_accepted nan = true
  /\ product_weight_accepted nan = true
  /\ daily_norms MALE 30 nan 80%float MODERATE BALANCE = Failed ValueError
  /\ daily_norms MALE 30 80%float nan MODERATE BALANCE = Failed ValueError.
Proof.
  apply (nan_passes_the_range_checks nan). reflexivity.
Defined.
